(** * Composio coder agent: the EditFile action and the CoderAgent orchestrator

    A shallow embedding of
    - [python/composio/local_tools/local_workspace/cmd_manager/actions/edit_cmd.py]
      (module [EditCmd]) and
    - [coders/composio_coders/swe.py] (module [Swe]),
    followed by the properties of the two that the specification states. *)

From Stdlib Require Import ZArith String Ascii List Lia.
From stdpp Require Import base option strings pretty list gmap.

Set Warnings "-register-all".

Local Open Scope string_scope.
Local Open Scope Z_scope.

(** ** Python values and exceptions *)

(** The line feed of the Python literal ["\n"]. *)
Definition LF : string := String "010"%char "".

(** Python exceptions that the embedded code raises itself or lets through.
    [ExternalError] is an error raised inside an external collaborator. *)
Inductive exn : Type :=
  | ValueError (msg : string)
  | KeyError (key : string)
  | IndexError
  | TypeError
  | AttributeError
  | ExternalError (what : string).

(** Outcome of a call: a value or a raised exception. *)
Inductive result (A : Type) : Type :=
  | Ok (a : A)
  | Raise (e : exn).
Arguments Ok {A} a.
Arguments Raise {A} e.

Definition is_ok {A} (r : result A) : bool :=
  match r with Ok _ => true | Raise _ => false end.

Global Instance result_ret : MRet result := fun A a => Ok a.
Global Instance result_bind : MBind result := fun A B f r =>
  match r with Ok a => f a | Raise e => Raise e end.

(** ** edit_cmd.py *)

Module EditCmd.

(** [EditFileRequest]: pydantic model with two [int] fields and one [str]. *)
Record EditFileRequest : Type := {
  start_line : Z;
  end_line : Z;
  replacement_text : string;
}.

(** [BaseCmdResponse], what [workspace.communicate] returns. *)
Record BaseCmdResponse : Type := {
  cmd_output : string;
  cmd_return_code : Z;
}.

(** [BaseResponse], what an action returns. *)
Record BaseResponse : Type := {
  output : string;
  return_code : Z;
}.

(** The marker of the here-document that carries the replacement text. *)
Definition end_of_edit : string := "end_of_edit".

(** The f-string of [EditFile.execute]:
    [f"edit {start_line}:{end_line} << end_of_edit\n{replacement_text}\nend_of_edit"].
    An [int] is formatted by [str], i.e. in decimal with a leading [-] when
    negative, which is what [pretty] on [Z] prints. *)
Definition full_command (request_data : EditFileRequest) : string :=
  "edit " +:+ pretty (start_line request_data) +:+ ":"
    +:+ pretty (end_line request_data) +:+ " << " +:+ end_of_edit +:+ LF
    +:+ replacement_text request_data +:+ LF +:+ end_of_edit.

(** Modelled from the spec: [process_output] of
    [composio.local_tools.local_workspace.commons.utils], which is not among
    the sources.  The specification (4.1) gives its policy: the return code is
    passed through unchanged, and the output is returned unchanged, the source
    being "a simple passthrough". *)
Definition process_output (out : string) (rc : Z) : string * Z := (out, rc).

(** Modelled from the spec: the invariant of the data model (3), "return_code 0
    denotes success; any other value denotes failure". *)
Definition is_failure (r : BaseResponse) : bool :=
  negb (return_code r =? 0).

Section Execute.
(** The remote workspace is an external collaborator: [communicate] sends
    one command and returns the response together with the workspace after
    the command. [_setup] of the absent base class binds the workspace. *)
Context {Workspace : Type}.
Variable _setup : EditFileRequest -> Workspace -> result Workspace.
Variable communicate : string -> Workspace -> result (BaseCmdResponse * Workspace).

(** Body of [EditFile.execute], without its decorator. *)
Definition execute_body (request_data : EditFileRequest) (w : Workspace)
  : result (BaseResponse * Workspace) :=
  match _setup request_data w with
  | Raise e => Raise e
  | Ok w1 =>
    let full_command := full_command request_data in
    match communicate full_command w1 with
    | Raise e => Raise e
    | Ok (workspace_response, w2) =>
      let '(output, return_code) :=
        process_output (cmd_output workspace_response)
                       (cmd_return_code workspace_response) in
      Ok ({| output := output; return_code := return_code |}, w2)
    end
  end.

(** Modelled from the spec: the decorator [history_recorder] of
    [composio.local_tools.local_workspace.commons.history_processor], which
    is not among the sources.  The specification (4.3): it "captures the
    request payload and the resulting response, appends them as a step
    record to the in-memory session log before returning the response to the
    caller". *)
Definition history_recorder
    (f : EditFileRequest -> Workspace -> result (BaseResponse * Workspace))
    (request_data : EditFileRequest)
    (s : Workspace * list (EditFileRequest * BaseResponse))
  : result (BaseResponse * (Workspace * list (EditFileRequest * BaseResponse))) :=
  match f request_data (fst s) with
  | Raise e => Raise e
  | Ok (response, w') => Ok (response, (w', (snd s ++ [(request_data, response)])%list))
  end.

(** [EditFile.execute] *)
Definition execute := history_recorder execute_body.

(** A session: the requests are executed one after the other. *)
Fixpoint execute_all (requests : list EditFileRequest)
    (s : Workspace * list (EditFileRequest * BaseResponse))
  : result (list BaseResponse
            * (Workspace * list (EditFileRequest * BaseResponse))) :=
  match requests with
  | [] => Ok ([], s)
  | request_data :: rest =>
      match execute request_data s with
      | Raise e => Raise e
      | Ok (response, s') =>
          match execute_all rest s' with
          | Raise e => Raise e
          | Ok (responses, s'') => Ok (response :: responses, s'')
          end
      end
  end.
End Execute.

(** *** Reading a command back *)

(** [needle] occurs in [hay]. *)
Definition contains (needle hay : string) : Prop :=
  exists pre suf, hay = pre +:+ needle +:+ suf.

(** [s] without the prefix [p], when it has it. *)
Fixpoint strip_prefix (p s : string) : option string :=
  match p, s with
  | EmptyString, _ => Some s
  | String a p', String b s' => if Ascii.eqb a b then strip_prefix p' s' else None
  | String _ _, EmptyString => None
  end.

(** [s] without the suffix [p], when it has it. *)
Fixpoint strip_suffix (p s : string) : option string :=
  if String.eqb s p then Some EmptyString
  else match s with
       | EmptyString => None
       | String a s' => String a <$> strip_suffix p s'
       end.

(** [s] cut at the first occurrence of [c]. *)
Fixpoint cut_at (c : ascii) (s : string) : option (string * string) :=
  match s with
  | EmptyString => None
  | String a s' =>
      if Ascii.eqb a c then Some (EmptyString, s')
      else '(l, r) ← cut_at c s'; Some (String a l, r)
  end.

(** How a receiver takes an edit command apart: the two line numbers as they
    are written, and the payload between the opening marker line and the
    closing marker. *)
Definition parse_command (cmd : string) : option (string * string * string) :=
  s ← strip_prefix "edit " cmd;
  '(first, s) ← cut_at ":" s;
  '(last, s) ← cut_at " " s;
  s ← strip_prefix ("<< " +:+ end_of_edit +:+ LF) s;
  payload ← strip_suffix (LF +:+ end_of_edit) s;
  Some (first, last, payload).

End EditCmd.

(** ** swe.py *)

Module Swe.

(** *** Python data *)

(** The Python values that reach this module: step outputs handed to the step
    callback by the agent framework, values of the untyped [model_env_config]
    dictionary, and the records the agent logs.  A dictionary is an association
    list in insertion order.  [PyAgentAction] and [PyAgentFinish] are the two
    [langchain_core.agents] classes that [add_in_logs] tests for. *)
Inductive pyval : Type :=
  | PyNone
  | PyInt (z : Z)
  | PyStr (s : string)
  | PyList (l : list pyval)
  | PyTuple (l : list pyval)
  | PyDict (d : list (pyval * pyval))
  | PyAgentAction (tool : string) (tool_input : pyval) (log : string)
  | PyAgentFinish (return_values : pyval) (log : string).

(** [type(v)], as the logger prints it. *)
Inductive pytype : Type :=
  TNoneType | TInt | TStr | TList | TTuple | TDict | TAgentAction | TAgentFinish.

Definition type_of (v : pyval) : pytype :=
  match v with
  | PyNone => TNoneType
  | PyInt _ => TInt
  | PyStr _ => TStr
  | PyList _ => TList
  | PyTuple _ => TTuple
  | PyDict _ => TDict
  | PyAgentAction _ _ _ => TAgentAction
  | PyAgentFinish _ _ => TAgentFinish
  end.

(** An [Optional[str]] as a Python value. *)
Definition of_optional (o : option string) : pyval :=
  match o with Some s => PyStr s | None => PyNone end.

(** Truth value of an [Optional[str]]: [None] and [""] are false. *)
Definition truthy (o : option string) : bool :=
  match o with
  | None => false
  | Some s => negb (String.eqb s "")
  end.

(** [d[n]] on a dictionary for an integer key [n]. *)
Fixpoint dict_get_int (d : list (pyval * pyval)) (n : Z) : option pyval :=
  match d with
  | [] => None
  | (PyInt k, v) :: d' => if k =? n then Some v else dict_get_int d' n
  | _ :: d' => dict_get_int d' n
  end.

(** [v[n]] for [n >= 0]: lists and tuples index their elements, a string its
    characters, a dictionary looks the key up, and the remaining values
    are not subscriptable. *)
Definition subscript (v : pyval) (n : nat) : result pyval :=
  match v with
  | PyList l | PyTuple l =>
      match l !! n with Some x => Ok x | None => Raise IndexError end
  | PyStr s =>
      match String.get n s with
      | Some c => Ok (PyStr (String c ""))
      | None => Raise IndexError
      end
  | PyDict d =>
      match dict_get_int d (Z.of_nat n) with
      | Some x => Ok x
      | None => Raise (KeyError (pretty n))
      end
  | PyNone | PyInt _ | PyAgentAction _ _ _ | PyAgentFinish _ _ => Raise TypeError
  end.

(** [len(v)] for the values that have a length. *)
Definition py_len (v : pyval) : result nat :=
  match v with
  | PyList l | PyTuple l => Ok (length l)
  | PyStr s => Ok (String.length s)
  | PyDict d => Ok (length d)
  | PyNone | PyInt _ | PyAgentAction _ _ _ | PyAgentFinish _ _ => Raise TypeError
  end.

(** [s.split("/")[-1]]: what follows the last slash, the whole string when
    there is none. *)
Fixpoint split_last_go (acc : string) (s : string) : string :=
  match s with
  | EmptyString => String.rev acc
  | String c s' =>
      if Ascii.eqb c "/"%char then split_last_go "" s'
      else split_last_go (String c acc) s'
  end.
Definition split_last (s : string) : string := split_last_go "" s.

(** *** Constants and library functions *)

(** [composio_coders.constants] is not among the sources: the names it exports
    are parameters of the development. *)
Class Constants : Type := {
  KEY_API_KEY : string;
  KEY_AZURE_ENDPOINT : string;
  KEY_MODEL_ENV : string;
  MODEL_ENV_AZURE : string;
  MODEL_ENV_OPENAI : string;
}.

(** [IssueConfig] of [composio_coders.config_store] is not among the sources.
    Modelled from the spec: "IssueConfig: {repo_name, issue_id, base_commit_id,
    issue_desc}"; a field that is missing is [None]. *)
Module IssueConfig.
Record t : Type := {
  repo_name : option string;
  issue_id : option string;
  base_commit_id : option string;
  issue_desc : option string;
}.
End IssueConfig.

(** A wall-clock reading, [datetime.datetime.now()]. *)
Record datetime : Type := {
  year : nat; month : nat; day : nat; hour : nat; minute : nat; second : nat;
}.

(** Functions of the Python standard library and of pydantic whose results the
    code only passes on. *)
Class PyLib : Type := {
  (** [tmpl.format(k1=v1, ...)] with keyword arguments *)
  str_format : string -> list (string * pyval) -> result string;
  (** [s.strip()] *)
  str_strip : string -> string;
  (** [str(d)] of a dictionary *)
  str_of_dict : gmap string pyval -> string;
  (** [json.dumps(v)] *)
  json_dumps : pyval -> result string;
  (** [agent_action.json()] *)
  AgentAction_json : string -> pyval -> string -> string;
  (** [t.strftime(fmt)] *)
  strftime : datetime -> string -> string;
  (** [dir / Path(name)] *)
  path_join : string -> string -> string;
}.

(** *** Objects of the agent framework *)

Inductive App : Type :=
  LOCALWORKSPACE | CMDMANAGERTOOL | HISTORYKEEPER | SUBMITPATCHTOOL.

Inductive Action : Type :=
  LOCALWORKSPACE_CREATEWORKSPACEACTION | CMDMANAGERTOOL_GITHUBCLONECMD.

(** The tools [ComposioToolSet.get_tools] returns, by name. *)
Definition Toolset : Type := list string.

Record Entity : Type := { entity_id : string }.

(** What [entity.execute] returns: the attribute [workspace_id] and the text
    the response prints as. *)
Record ActionResponse : Type := {
  workspace_id : pyval;
  response_text : string;
}.

(** The two LLM clients, as the keyword arguments they are constructed with. *)
Inductive LLM : Type :=
  | ChatOpenAI (model : string) (api_key : option string) (callbacks : pyval)
  | AzureChatOpenAI (azure_endpoint : pyval) (api_key : pyval)
      (model model_version api_version : string) (callbacks : pyval).

(** A step callback; the only one the code installs is the bound method
    [self.add_in_logs]. *)
Inductive StepCallback : Type := add_in_logs_of_self.

(** [crewai.Agent], as its keyword arguments; an argument that is not passed
    is [None]. *)
Record Agent : Type := {
  role : string;
  goal : string;
  backstory : string;
  verbose : bool;
  tools : Toolset;
  llm : LLM;
  memory : bool;
  cache : option bool;
  allow_delegation : option bool;
  step_callback : StepCallback;
  callbacks : pyval;
}.

(** [crewai.Task]. *)
Inductive Task : Type :=
  mkTask (description : string) (agent : Agent) (expected_output : string)
         (context : option (list Task)).

(** [crewai.Crew]. *)
Record Crew : Type := {
  agents : list Agent;
  tasks : list Task;
  crew_memory : bool;
}.

(** *** Effects *)

(** Calls that leave the process, in the order they are issued. A call is
    recorded when it is issued, whether or not it then raises. *)
Inductive event : Type :=
  | EvToolSetInit
  | EvGetTools (apps : list App)
  | EvComposioClient
  | EvGetEntity (id : string)
  | EvExecute (entity : Entity) (action : Action) (params : list (string * pyval))
  | EvLLM (llm : LLM)
  | EvAgent (a : Agent)
  | EvTask (t : Task)
  | EvCrew (c : Crew)
  | EvKickoff (c : Crew)
  | EvOpen (path mode encoding : string)
  | EvWrite (path data : string).

(** What the module logger is asked to print. *)
Inductive log_record : Type :=
  | LogWorkspaceCreated (workspace_id : pyval)
  | LogGitCloneResponse (r : ActionResponse)
  | LogTypeOfStepOutput (t : pytype)
  | LogTypeIsNotList (t : pytype).

(** The process state outside the agent object: [os.environ], the wall
    clock, the calls issued so far and the log lines printed so far. *)
Record world : Type := {
  environ : gmap string string;
  now : datetime;
  trace : list event;
  logged : list log_record;
}.

(** How the external collaborators answer. [crew_kickoff] describes one
    execution of a crew by the agent framework: the steps the framework takes,
    each with the position in [crew.agents] of the agent that takes it and the
    step output it hands to that agent's step callback, and the error the
    execution ends with, if any.  A Composio client is constructed more than
    once with the same arguments: [composio_client] answers from the calls
    issued before the construction, so that two constructions can answer
    differently.  An instance gives the answers during one construction or one
    run: two runs of an agent can meet different instances. *)
Class Externals : Type := {
  toolset_init : result unit;
  get_tools : list App -> result Toolset;
  composio_client : list event -> result unit;
  get_entity : string -> result Entity;
  entity_execute : Entity -> Action -> list (string * pyval) -> result ActionResponse;
  crew_kickoff : Crew -> list (nat * pyval) * option exn;
  file_open : string -> result unit;
}.

(** A computation over a state [S] that returns a value or raises; the state
    reached is kept in both cases. *)
Definition M (S A : Type) : Type := S -> result A * S.

Global Instance M_ret {S} : MRet (M S) := fun A a s => (Ok a, s).
Global Instance M_bind {S} : MBind (M S) := fun A B f m s =>
  match m s with
  | (Ok a, s') => f a s'
  | (Raise e, s') => (Raise e, s')
  end.

Definition raise {S A} (e : exn) : M S A := fun s => (Raise e, s).
Definition of_result {S A} (r : result A) : M S A := fun s => (r, s).

(** The three updates of the world. *)
Definition record_call (ev : event) (w : world) : world :=
  {| environ := environ w; now := now w;
     trace := trace w ++ [ev]; logged := logged w |}.
Definition record_log (r : log_record) (w : world) : world :=
  {| environ := environ w; now := now w;
     trace := trace w; logged := logged w ++ [r] |}.
Definition setenv (k v : string) (w : world) : world :=
  {| environ := <[k := v]> (environ w); now := now w;
     trace := trace w; logged := logged w |}.

(** Issue an external call: record it, then return or raise as it answers. *)
Definition extcall {A} (ev : event) (answer : result A) : M world A :=
  fun w => (answer, record_call ev w).

Definition logger_info (r : log_record) : M world unit :=
  fun w => (Ok (), record_log r w).

Definition environ_get (k : string) : M world (option string) :=
  fun w => (Ok (environ w !! k), w).

Definition has_nul (s : string) : bool :=
  existsb (fun c => Ascii.eqb c "000"%char) (list_ascii_of_string s).

(** [os.environ[k] = v]: only a [str] without a null byte is accepted. *)
Definition environ_set (k : string) (v : pyval) : M world unit :=
  match v with
  | PyStr s =>
      if has_nul s then raise (ValueError "embedded null byte")
      else fun w => (Ok (), setenv k s w)
  | _ => raise TypeError
  end.

Definition datetime_now : M world datetime := fun w => (Ok (now w), w).

(** [d.get(k)] and [d[k]] on [model_env_config]. *)
Definition dict_get (d : gmap string pyval) (k : string) : pyval :=
  default PyNone (d !! k).
Definition dict_item (d : gmap string pyval) (k : string) : result pyval :=
  match d !! k with Some v => Ok v | None => Raise (KeyError k) end.

(** [v == s] for a string [s]. *)
Definition eq_str (v : pyval) (s : string) : bool :=
  match v with PyStr s' => String.eqb s' s | _ => false end.

(** *** The agent *)

Definition LOGS_DIR_NAME_PREFIX : string := "coder_agent_logs".
Definition AGENT_LOGS_JSON_PATH : string := "agent_logs.json".

Module CoderAgentArgs.
Record t : Type := {
  agent_role : string;
  agent_goal : string;
  task_expected_output : string;
  agent_backstory_tmpl : string;
  issue_description_tmpl : string;
  issue_config : IssueConfig.t;
  model_env_config : gmap string pyval;
  agent_logs_dir : string;
  is_benchmark : bool;
}.
End CoderAgentArgs.

(** The attributes of a [CoderAgent]. [current_logs] is one list object for
    the life of the agent, and every value stored in the dictionary
    [agent_logs] is that same object: [agent_logs] is kept as its keys, in
    insertion order. *)
Record CoderAgent : Type := {
  args : CoderAgentArgs.t;
  model_env : gmap string pyval;
  issue_config : IssueConfig.t;
  repo_name : option string;
  composio_toolset : Toolset;
  entity : Entity;
  composio_entity : Entity;
  agent_role : string;
  agent_goal : string;
  expected_output : string;
  agent_backstory_tmpl : string;
  issue_description_tmpl : string;
  agent_logs_dir : string;
  task_output_logs : string;
  agent_logs : list (option string);
  current_logs : list pyval;
  is_benchmark : bool;
}.

(** The dictionary [self.agent_logs], every key bound to [self.current_logs]. *)
Definition agent_logs_dict (self : CoderAgent) : pyval :=
  PyDict (map (fun k => (of_optional k, PyList (current_logs self)))
              (agent_logs self)).

(** The state during a method call: the agent object and the world. *)
Definition obj : Type := CoderAgent * world.

Definition in_world {A} (m : M world A) : M obj A :=
  fun s => let '(r, w') := m (snd s) in (r, (fst s, w')).

Definition get_self : M obj CoderAgent := fun s => (Ok (fst s), s).

(** The agent with its two mutable attributes replaced. *)
Definition with_logs (self : CoderAgent) (keys : list (option string))
    (logs : list pyval) : CoderAgent :=
  {| args := args self; model_env := model_env self;
     issue_config := issue_config self; repo_name := repo_name self;
     composio_toolset := composio_toolset self; entity := entity self;
     composio_entity := composio_entity self;
     agent_role := agent_role self; agent_goal := agent_goal self;
     expected_output := expected_output self;
     agent_backstory_tmpl := agent_backstory_tmpl self;
     issue_description_tmpl := issue_description_tmpl self;
     agent_logs_dir := agent_logs_dir self;
     task_output_logs := task_output_logs self;
     agent_logs := keys; current_logs := logs;
     is_benchmark := is_benchmark self |}.

Definition set_logs (keys : list (option string)) (logs : list pyval) : M obj unit :=
  fun s => (Ok (), (with_logs (fst s) keys logs, snd s)).

(** [self.current_logs.append(x)] *)
Definition current_logs_append (x : pyval) : M obj unit :=
  self ← get_self; set_logs (agent_logs self) (current_logs self ++ [x]).

(** [self.agent_logs[k] = self.current_logs]: a key already present keeps its
    place. *)
Definition agent_logs_setitem (k : option string) : M obj unit :=
  self ← get_self;
  set_logs (if bool_decide (k ∈ agent_logs self) then agent_logs self
            else agent_logs self ++ [k])
           (current_logs self).

Section Methods.
Context {K : Constants} {L : PyLib} {X : Externals}.

(** [Composio()] *)
Definition new_composio_client : M world unit :=
  fun w => (composio_client (trace w), record_call EvComposioClient w).

(** [CoderAgent.get_composio_entity] *)
Definition get_composio_entity : M world Entity :=
  new_composio_client;;
  extcall (EvGetEntity "SWE-Agent-Client") (get_entity "SWE-Agent-Client").

(** [CoderAgent.__init__] *)
Definition __init__ (args : CoderAgentArgs.t) : M world CoderAgent :=
  let model_env := CoderAgentArgs.model_env_config args in
  let issue_config := CoderAgentArgs.issue_config args in
  let repo_name := IssueConfig.repo_name issue_config in
  if negb (truthy (IssueConfig.issue_id issue_config)) then
    raise (ValueError "no git-issue configuration is found")
  else
    extcall EvToolSetInit toolset_init;;
    let apps := [LOCALWORKSPACE; CMDMANAGERTOOL; HISTORYKEEPER; SUBMITPATCHTOOL] in
    composio_toolset ← extcall (EvGetTools apps) (get_tools apps);
    new_composio_client;;
    entity ← extcall (EvGetEntity "swe-agent") (get_entity "swe-agent");
    composio_entity ← get_composio_entity;
    let agent_logs_dir := CoderAgentArgs.agent_logs_dir args in
    t ← datetime_now;
    let task_output_logs :=
      path_join agent_logs_dir
        (AGENT_LOGS_JSON_PATH +:+ strftime t "%m_%d_%Y_%H_%M_%S") in
    mret {| args := args; model_env := model_env;
            issue_config := issue_config; repo_name := repo_name;
            composio_toolset := composio_toolset; entity := entity;
            composio_entity := composio_entity;
            agent_role := CoderAgentArgs.agent_role args;
            agent_goal := CoderAgentArgs.agent_goal args;
            expected_output := CoderAgentArgs.task_expected_output args;
            agent_backstory_tmpl := CoderAgentArgs.agent_backstory_tmpl args;
            issue_description_tmpl := CoderAgentArgs.issue_description_tmpl args;
            agent_logs_dir := agent_logs_dir;
            task_output_logs := task_output_logs;
            agent_logs := []; current_logs := [];
            is_benchmark := CoderAgentArgs.is_benchmark args |}.

(** [CoderAgent.save_history] *)
Definition save_history (instance_id : option string) : M obj unit :=
  agent_logs_setitem instance_id;;
  self ← get_self;
  let path := task_output_logs self in
  in_world (extcall (EvOpen path "w" "utf-8") (file_open path));;
  data ← of_result (json_dumps (agent_logs_dict self));
  in_world (extcall (EvWrite path data) (Ok ())).

(** [CoderAgent.add_in_logs] *)
Definition add_in_logs (step_output : pyval) : M obj unit :=
  match step_output with
  | PyAgentFinish return_values _ =>
      current_logs_append
        (PyDict [(PyStr "agent_action", PyStr "agent_finish");
                 (PyStr "agent_output", return_values)])
  | _ => mret ()
  end;;
  match step_output with
  | PyList (agent_action_with_tool_out :: _) =>
      first ← of_result (subscript agent_action_with_tool_out 0);
      match first with
      | PyAgentAction tool tool_input log =>
          n ← of_result (py_len agent_action_with_tool_out);
          tool_out ← (if (1 <? n)%nat
                      then of_result (subscript agent_action_with_tool_out 1)
                      else mret PyNone);
          current_logs_append
            (PyDict [(PyStr "agent_action",
                      PyStr (AgentAction_json tool tool_input log));
                     (PyStr "tool_output", tool_out)])
      | _ => in_world (logger_info (LogTypeOfStepOutput (type_of first)))
      end
  | _ => in_world (logger_info (LogTypeIsNotList (type_of step_output)))
  end.

(** [CoderAgent.get_llm] *)
Definition get_llm (callbacks : pyval) : M obj LLM :=
  self ← get_self;
  let model_env_ := dict_get (model_env self) KEY_MODEL_ENV in
  if eq_str model_env_ MODEL_ENV_OPENAI then
    openai_key ← in_world (environ_get "OPANAI_API_KEY");
    let llm := ChatOpenAI "gpt-4-turbo" openai_key callbacks in
    in_world (extcall (EvLLM llm) (Ok llm))
  else if eq_str model_env_ MODEL_ENV_AZURE then
    let azure_endpoint := dict_get (model_env self) KEY_AZURE_ENDPOINT in
    let azure_key := dict_get (model_env self) KEY_API_KEY in
    v ← of_result (dict_item (model_env self) KEY_AZURE_ENDPOINT);
    in_world (environ_set "AZURE_OPENAI_ENDPOINT" v);;
    v ← of_result (dict_item (model_env self) KEY_API_KEY);
    in_world (environ_set "AZURE_OPENAI_API_KEY" v);;
    let azure_llm :=
      AzureChatOpenAI azure_endpoint azure_key "test" "1106-Preview"
                      "2024-02-01" callbacks in
    in_world (extcall (EvLLM azure_llm) (Ok azure_llm))
  else
    raise (ValueError ("Invalid model environment: "
                         +:+ str_of_dict (model_env self))).

(** The framework calls a step callback. *)
Definition call_step_callback (cb : StepCallback) (step_output : pyval)
  : M obj unit :=
  match cb with add_in_logs_of_self => add_in_logs step_output end.

(** The steps of one crew execution: each step output goes to the step
    callback of the agent of the crew that took the step; an exception of
    the callback is not caught. *)
Fixpoint drive (crew : Crew) (steps : list (nat * pyval)) : M obj unit :=
  match steps with
  | [] => mret ()
  | (i, step_output) :: steps' =>
      match agents crew !! i with
      | Some a => call_step_callback (step_callback a) step_output
      | None => mret ()
      end;;
      drive crew steps'
  end.

(** [crew.kickoff()] *)
Definition kickoff (crew : Crew) : M obj unit :=
  in_world (extcall (EvKickoff crew) (Ok ()));;
  drive crew (fst (crew_kickoff crew));;
  match snd (crew_kickoff crew) with
  | Some e => raise e
  | None => mret ()
  end.

(** ["/" + self.repo_name.split("/")[-1].strip()] *)
Definition repo_name_dir (repo_name : option string) : result string :=
  match repo_name with
  | Some s => Ok ("/" +:+ str_strip (split_last s))
  | None => Raise AttributeError
  end.

Definition reviewer_role : string :=
  "You are the best reviewer. You think carefully and step by step take action.".
Definition reviewer_goal : string :=
  "Review the patch and make sure it fixes the issue.".
Definition reviewer_backstory : string :=
  "An AI Agent tries to solve an issue and submits a patch to the repo. "
  +:+ "You can assume the AI agent operates as a junior developer and has limited knowledge of the codebase."
  +:+ "It's your job to review the patch and make sure it fixes the issue."
  +:+ "The patch might be incomplete. In that case point out the missing parts and ask the AI agent to add them."
  +:+ "The patch might have some compilation issues/typo. Point out those and ask the AI agent to fix them."
  +:+ "The patch might have some logical issues. Point out those and ask the AI agent to fix them."
  +:+ "Once the patch is ready, approve it and ask the AI agent to submit it."
  +:+ "It is fine to have multiple iterations of the review. Keep iterating until the patch is ready to be submitted."
  +:+ "The are the best reviewer. You think carefully and step by step take action.".

(** The coder agent and its task, as [run] builds them. *)
Definition make_swe_agent (self : CoderAgent) (backstory : string) (llm : LLM)
    (callbacks : pyval) : Agent :=
  {| role := agent_role self; goal := agent_goal self; backstory := backstory;
     verbose := true; tools := composio_toolset self; llm := llm;
     memory := true; cache := Some false; allow_delegation := None;
     step_callback := add_in_logs_of_self; callbacks := callbacks |}.

Definition make_coding_task (self : CoderAgent) (description : string)
    (swe_agent : Agent) : Task :=
  mkTask description swe_agent (expected_output self) None.

(** The reviewer agent and its task, as [run] builds them. *)
Definition make_reviewer_agent (self : CoderAgent) (llm : LLM)
    (callbacks : pyval) : Agent :=
  {| role := reviewer_role; goal := reviewer_goal;
     backstory := reviewer_backstory;
     verbose := true; tools := composio_toolset self; llm := llm;
     memory := true; cache := None; allow_delegation := Some true;
     step_callback := add_in_logs_of_self; callbacks := callbacks |}.

Definition make_review_task (reviewer_agent : Agent) (coding_task : Task)
  : Task :=
  mkTask "Review the patch and make sure it fixes the issue." reviewer_agent
         "The patch is ready to be submitted to the repo." (Some [coding_task]).

(** [CoderAgent.run] *)
Definition run : M obj unit :=
  llm ← get_llm PyNone;
  let callbacks := PyNone in
  self ← get_self;
  workspace_create_resp ←
    in_world (extcall
      (EvExecute (entity self) LOCALWORKSPACE_CREATEWORKSPACEACTION [])
      (entity_execute (entity self) LOCALWORKSPACE_CREATEWORKSPACEACTION []));
  let workspace_id := workspace_id workspace_create_resp in
  in_world (logger_info (LogWorkspaceCreated workspace_id));;
  let params :=
    [("workspace_id", workspace_id);
     ("repo_name", of_optional (IssueConfig.repo_name (issue_config self)));
     ("branch_name",
      of_optional (IssueConfig.base_commit_id (issue_config self)))] in
  git_clone_response ←
    in_world (extcall
      (EvExecute (entity self) CMDMANAGERTOOL_GITHUBCLONECMD params)
      (entity_execute (entity self) CMDMANAGERTOOL_GITHUBCLONECMD params));
  dir ← of_result (repo_name_dir (repo_name self));
  issue_added_instruction ←
    of_result (str_format (issue_description_tmpl self)
      [("issue", of_optional (IssueConfig.issue_desc (issue_config self)));
       ("issue_id", of_optional (IssueConfig.issue_id (issue_config self)));
       ("repo_name_dir", PyStr dir)]);
  dir ← of_result (repo_name_dir (repo_name self));
  backstory_added_instruction ←
    of_result (str_format (agent_backstory_tmpl self)
      [("workspace_id", workspace_id);
       ("repo_name", of_optional (repo_name self));
       ("repo_name_dir", PyStr dir);
       ("base_commit",
        of_optional (IssueConfig.base_commit_id (issue_config self)))]);
  in_world (logger_info (LogGitCloneResponse git_clone_response));;
  let swe_agent := make_swe_agent self backstory_added_instruction llm callbacks in
  in_world (extcall (EvAgent swe_agent) (Ok ()));;
  let coding_task := make_coding_task self issue_added_instruction swe_agent in
  in_world (extcall (EvTask coding_task) (Ok ()));;
  let reviewer_agent := make_reviewer_agent self llm callbacks in
  in_world (extcall (EvAgent reviewer_agent) (Ok ()));;
  let review_task := make_review_task reviewer_agent coding_task in
  in_world (extcall (EvTask review_task) (Ok ()));;
  let crew :=
    {| agents := [swe_agent]; tasks := [coding_task]; crew_memory := true |} in
  in_world (extcall (EvCrew crew) (Ok ()));;
  kickoff crew;;
  save_history (IssueConfig.issue_id (issue_config self)).
End Methods.

(** *** The module logger *)

(** The levels of [logging], in increasing order. *)
Inductive LogLevel : Type := NOTSET | DEBUG | INFO | WARNING | ERROR | CRITICAL.

Definition level_value (l : LogLevel) : nat :=
  match l with
  | NOTSET => 0 | DEBUG => 10 | INFO => 20
  | WARNING => 30 | ERROR => 40 | CRITICAL => 50
  end.

(** A [RichHandler], as the keyword arguments it is constructed with and the
    level set on it. *)
Record RichHandler : Type := {
  show_time : bool;
  show_path : bool;
  handler_level : LogLevel;
}.

(** A [logging.Logger] without parents: its level, its handlers in the order
    they were added, and whether it hands records to the loggers above it. *)
Record Logger : Type := {
  logger_level : LogLevel;
  handlers : list RichHandler;
  propagate : bool;
}.

(** [logging.getLogger(name)]: the logger registered under the name, a new
    one (level [NOTSET], no handler, propagating) when there is none. *)
Definition getLogger (name : string) (loggers : gmap string Logger) : Logger :=
  default {| logger_level := NOTSET; handlers := []; propagate := true |}
          (loggers !! name).

(** [setup_logger]: the state of the logger registry after the call; the
    logger returned is the one registered under ["local_workspace"].  The
    handler is a new object at each call, so [addHandler], which skips a
    handler that is already in the list, always adds it. *)
Definition setup_logger (loggers : gmap string Logger) : gmap string Logger :=
  let handler :=
    {| show_time := false; show_path := false; handler_level := DEBUG |} in
  let logger := getLogger "local_workspace" loggers in
  <["local_workspace" :=
      {| logger_level := DEBUG;
         handlers := handlers logger ++ [handler];
         propagate := false |}]> loggers.

(** How many times a record of level [l] sent to a logger is emitted by the
    handlers of that logger: once by each handler whose level lets it
    through, when the logger is enabled for [l]; a logger whose level is
    [NOTSET] and that has no parent with a level is enabled from [WARNING]. *)
Definition emissions (l : LogLevel) (logger : Logger) : nat :=
  let threshold :=
    match logger_level logger with
    | NOTSET => level_value WARNING
    | lvl => level_value lvl
    end in
  if (threshold <=? level_value l)%nat then
    length (List.filter (fun h => (level_value (handler_level h) <=? level_value l)%nat)
                        (handlers logger))
  else 0%nat.

End Swe.

(** ** The configuration of the script entry point *)

(** The issue and the model environment the [__main__] block of [swe.py] runs
    the agent with, and one behaviour of the collaborators under which that
    run goes through.  The names exported by [composio_coders.constants] and
    the prompts of [composio_coders.prompts] are not among the sources: the
    values given to them here are examples. *)
Module Main.

Definition constants : Swe.Constants :=
  {| Swe.KEY_API_KEY := "api_key";
     Swe.KEY_AZURE_ENDPOINT := "azure_endpoint";
     Swe.KEY_MODEL_ENV := "model_env";
     Swe.MODEL_ENV_AZURE := "azure";
     Swe.MODEL_ENV_OPENAI := "openai" |}.

Definition issue_config : Swe.IssueConfig.t :=
  {| Swe.IssueConfig.repo_name := Some "ComposioHQ/composio";
     Swe.IssueConfig.issue_id := Some "123";
     Swe.IssueConfig.base_commit_id := Some "shubhra/linter";
     Swe.IssueConfig.issue_desc := Some "fix the linter errors" |}.

Definition model_env_config : gmap string Swe.pyval :=
  <["api_key" := Swe.PyStr "test-api-key"]>
    (<["azure_endpoint" := Swe.PyStr "azure-end-point"]>
       (<["model_env" := Swe.PyStr "openai"]> ∅)).

Definition args : Swe.CoderAgentArgs.t :=
  {| Swe.CoderAgentArgs.agent_role := "linter";
     Swe.CoderAgentArgs.agent_goal := "fix lint errors";
     Swe.CoderAgentArgs.task_expected_output := "a patch";
     Swe.CoderAgentArgs.agent_backstory_tmpl := "workspace {workspace_id}";
     Swe.CoderAgentArgs.issue_description_tmpl := "issue {issue_id}";
     Swe.CoderAgentArgs.issue_config := issue_config;
     Swe.CoderAgentArgs.model_env_config := model_env_config;
     Swe.CoderAgentArgs.agent_logs_dir := "logs";
     Swe.CoderAgentArgs.is_benchmark := false |}.

(** A double quote. *)
Definition dq : string := String "034"%char "".

(** A serializer for the values that occur in the log of this run: no
    escaping, [None] printed as a key like [json.dumps] prints it. *)
Fixpoint dumps (v : Swe.pyval) : result string :=
  match v with
  | Swe.PyNone => Ok "null"
  | Swe.PyInt z => Ok (pretty z)
  | Swe.PyStr s => Ok (dq +:+ s +:+ dq)
  | Swe.PyList l | Swe.PyTuple l =>
      body ← (fix go (l : list Swe.pyval) : result string :=
                match l with
                | [] => Ok ""
                | [x] => dumps x
                | x :: l' => a ← dumps x; b ← go l'; Ok (a +:+ ", " +:+ b)
                end) l;
      Ok ("[" +:+ body +:+ "]")
  | Swe.PyDict d =>
      body ← (fix go (d : list (Swe.pyval * Swe.pyval)) : result string :=
                match d with
                | [] => Ok ""
                | (k, x) :: d' =>
                    key ← match k with
                          | Swe.PyStr s => Ok (dq +:+ s +:+ dq)
                          | Swe.PyNone => Ok (dq +:+ "null" +:+ dq)
                          | Swe.PyInt z => Ok (dq +:+ pretty z +:+ dq)
                          | _ => Raise TypeError
                          end;
                    a ← dumps x;
                    match d' with
                    | [] => Ok (key +:+ ": " +:+ a)
                    | _ => b ← go d'; Ok (key +:+ ": " +:+ a +:+ ", " +:+ b)
                    end
                end) d;
      Ok ("{" +:+ body +:+ "}")
  | Swe.PyAgentAction _ _ _ | Swe.PyAgentFinish _ _ => Raise TypeError
  end.

(** A number on two digits. *)
Definition pad2 (n : nat) : string :=
  if (n <? 10)%nat then "0" +:+ pretty n else pretty n.

Definition pylib : Swe.PyLib :=
  {| Swe.str_format := fun tmpl _ => Ok tmpl;
     Swe.str_strip := fun s => s;
     Swe.str_of_dict := fun _ => "{...}";
     Swe.json_dumps := dumps;
     Swe.AgentAction_json := fun tool _ _ => "{tool: " +:+ tool +:+ "}";
     Swe.strftime := fun t _ =>
       pad2 (Swe.month t) +:+ "_" +:+ pad2 (Swe.day t) +:+ "_"
         +:+ pretty (Swe.year t) +:+ "_" +:+ pad2 (Swe.hour t) +:+ "_"
         +:+ pad2 (Swe.minute t) +:+ "_" +:+ pad2 (Swe.second t);
     Swe.path_join := fun dir name => dir +:+ "/" +:+ name |}.

(** The steps of the one crew execution: a tool call, a step output that
    is an empty list, and the final answer. *)
Definition steps : list (nat * Swe.pyval) :=
  [(0%nat, Swe.PyList [Swe.PyTuple [Swe.PyAgentAction "edit" (Swe.PyStr "1:2") "";
                                    Swe.PyStr "ok"]]);
   (0%nat, Swe.PyList []);
   (0%nat, Swe.PyAgentFinish (Swe.PyDict [(Swe.PyStr "output", Swe.PyStr "done")]) "")].

Definition externals : Swe.Externals :=
  {| Swe.toolset_init := Ok ();
     Swe.get_tools := fun _ => Ok ["edit"];
     Swe.composio_client := fun _ => Ok ();
     Swe.get_entity := fun id => Ok {| Swe.entity_id := id |};
     Swe.entity_execute := fun _ _ _ =>
       Ok {| Swe.workspace_id := Swe.PyStr "ws-1"; Swe.response_text := "ok" |};
     Swe.crew_kickoff := fun _ => (steps, None);
     Swe.file_open := fun _ => Ok () |}.

(** The same collaborators, except that cloning the repository fails. *)
Definition externals_clone_fails : Swe.Externals :=
  {| Swe.toolset_init := Ok ();
     Swe.get_tools := fun _ => Ok ["edit"];
     Swe.composio_client := fun _ => Ok ();
     Swe.get_entity := fun id => Ok {| Swe.entity_id := id |};
     Swe.entity_execute := fun _ action _ =>
       match action with
       | Swe.LOCALWORKSPACE_CREATEWORKSPACEACTION =>
           Ok {| Swe.workspace_id := Swe.PyStr "ws-1"; Swe.response_text := "ok" |}
       | Swe.CMDMANAGERTOOL_GITHUBCLONECMD => Raise (ExternalError "clone")
       end;
     Swe.crew_kickoff := fun _ => (steps, None);
     Swe.file_open := fun _ => Ok () |}.

(** The same arguments without an issue identifier. *)
Definition args_without_issue : Swe.CoderAgentArgs.t :=
  {| Swe.CoderAgentArgs.agent_role := "linter";
     Swe.CoderAgentArgs.agent_goal := "fix lint errors";
     Swe.CoderAgentArgs.task_expected_output := "a patch";
     Swe.CoderAgentArgs.agent_backstory_tmpl := "workspace {workspace_id}";
     Swe.CoderAgentArgs.issue_description_tmpl := "issue {issue_id}";
     Swe.CoderAgentArgs.issue_config :=
       {| Swe.IssueConfig.repo_name := Some "ComposioHQ/composio";
          Swe.IssueConfig.issue_id := None;
          Swe.IssueConfig.base_commit_id := Some "shubhra/linter";
          Swe.IssueConfig.issue_desc := Some "fix the linter errors" |};
     Swe.CoderAgentArgs.model_env_config := model_env_config;
     Swe.CoderAgentArgs.agent_logs_dir := "logs";
     Swe.CoderAgentArgs.is_benchmark := false |}.

(** The same arguments with a model environment that names the Azure
    backend and nothing else, and one that names it with its credentials. *)
Definition args_azure (model_env_config : gmap string Swe.pyval)
  : Swe.CoderAgentArgs.t :=
  {| Swe.CoderAgentArgs.agent_role := "linter";
     Swe.CoderAgentArgs.agent_goal := "fix lint errors";
     Swe.CoderAgentArgs.task_expected_output := "a patch";
     Swe.CoderAgentArgs.agent_backstory_tmpl := "workspace {workspace_id}";
     Swe.CoderAgentArgs.issue_description_tmpl := "issue {issue_id}";
     Swe.CoderAgentArgs.issue_config := issue_config;
     Swe.CoderAgentArgs.model_env_config := model_env_config;
     Swe.CoderAgentArgs.agent_logs_dir := "logs";
     Swe.CoderAgentArgs.is_benchmark := false |}.


Definition azure_with_credentials : gmap string Swe.pyval :=
  <["api_key" := Swe.PyStr "test-api-key"]>
    (<["azure_endpoint" := Swe.PyStr "azure-end-point"]>
       (<["model_env" := Swe.PyStr "azure"]> ∅)).


Definition world0 : Swe.world :=
  {| Swe.environ := ∅;
     Swe.now := {| Swe.year := 2024; Swe.month := 5; Swe.day := 17;
                   Swe.hour := 9; Swe.minute := 30; Swe.second := 7 |};
     Swe.trace := [];
     Swe.logged := [] |}.

(** The agent the entry point constructs. *)
Definition c_agent : Swe.CoderAgent :=
  match Swe.__init__ (X := externals) (L := pylib) args world0 with
  | (Ok a, _) => a
  | (Raise _, _) =>
      {| Swe.args := args; Swe.model_env := ∅; Swe.issue_config := issue_config;
         Swe.repo_name := None; Swe.composio_toolset := [];
         Swe.entity := {| Swe.entity_id := "" |};
         Swe.composio_entity := {| Swe.entity_id := "" |};
         Swe.agent_role := ""; Swe.agent_goal := ""; Swe.expected_output := "";
         Swe.agent_backstory_tmpl := ""; Swe.issue_description_tmpl := "";
         Swe.agent_logs_dir := ""; Swe.task_output_logs := "";
         Swe.agent_logs := []; Swe.current_logs := [];
         Swe.is_benchmark := false |}
  end.

(** The agent constructed from other arguments, by the same collaborators. *)
Definition agent_of (args : Swe.CoderAgentArgs.t) : Swe.CoderAgent :=
  match Swe.__init__ (X := externals) (L := pylib) args world0 with
  | (Ok a, _) => a
  | (Raise _, _) => c_agent
  end.

(** The world after the construction. *)
Definition world1 : Swe.world :=
  snd (Swe.__init__ (X := externals) (L := pylib) args world0).

(** The same collaborators, except that the crew execution ends with an
    error after its steps. *)
Definition externals_crew_fails : Swe.Externals :=
  {| Swe.toolset_init := Ok ();
     Swe.get_tools := fun _ => Ok ["edit"];
     Swe.composio_client := fun _ => Ok ();
     Swe.get_entity := fun id => Ok {| Swe.entity_id := id |};
     Swe.entity_execute := fun _ _ _ =>
       Ok {| Swe.workspace_id := Swe.PyStr "ws-1"; Swe.response_text := "ok" |};
     Swe.crew_kickoff := fun _ => (steps, Some (ExternalError "crew"));
     Swe.file_open := fun _ => Ok () |}.

(** The same collaborators, except that a Composio client can be
    constructed only once. *)
Definition externals_second_client_fails : Swe.Externals :=
  {| Swe.toolset_init := Ok ();
     Swe.get_tools := fun _ => Ok ["edit"];
     Swe.composio_client := fun calls =>
       if existsb (fun c => match c with
                            | Swe.EvComposioClient => true
                            | _ => false
                            end) calls
       then Raise (ExternalError "client") else Ok ();
     Swe.get_entity := fun id => Ok {| Swe.entity_id := id |};
     Swe.entity_execute := fun _ _ _ =>
       Ok {| Swe.workspace_id := Swe.PyStr "ws-1"; Swe.response_text := "ok" |};
     Swe.crew_kickoff := fun _ => (steps, None);
     Swe.file_open := fun _ => Ok () |}.

(** The collaborators of a later run, in which the crew takes one step, the
    final answer. *)
Definition externals_later_run : Swe.Externals :=
  {| Swe.toolset_init := Ok ();
     Swe.get_tools := fun _ => Ok ["edit"];
     Swe.composio_client := fun _ => Ok ();
     Swe.get_entity := fun id => Ok {| Swe.entity_id := id |};
     Swe.entity_execute := fun _ _ _ =>
       Ok {| Swe.workspace_id := Swe.PyStr "ws-2"; Swe.response_text := "ok" |};
     Swe.crew_kickoff := fun _ =>
       ([(0%nat, Swe.PyAgentFinish
                   (Swe.PyDict [(Swe.PyStr "output", Swe.PyStr "again")]) "")],
        None);
     Swe.file_open := fun _ => Ok () |}.

(** The same collaborators, except that no file can be opened. *)
Definition externals_open_fails : Swe.Externals :=
  {| Swe.toolset_init := Ok ();
     Swe.get_tools := fun _ => Ok ["edit"];
     Swe.composio_client := fun _ => Ok ();
     Swe.get_entity := fun id => Ok {| Swe.entity_id := id |};
     Swe.entity_execute := fun _ _ _ =>
       Ok {| Swe.workspace_id := Swe.PyStr "ws-1"; Swe.response_text := "ok" |};
     Swe.crew_kickoff := fun _ => (steps, None);
     Swe.file_open := fun _ => Raise (ExternalError "open") |}.

(** The arguments of the entry point with an issue that names no
    repository. *)
Definition args_without_repo : Swe.CoderAgentArgs.t :=
  {| Swe.CoderAgentArgs.agent_role := "linter";
     Swe.CoderAgentArgs.agent_goal := "fix lint errors";
     Swe.CoderAgentArgs.task_expected_output := "a patch";
     Swe.CoderAgentArgs.agent_backstory_tmpl := "workspace {workspace_id}";
     Swe.CoderAgentArgs.issue_description_tmpl := "issue {issue_id}";
     Swe.CoderAgentArgs.issue_config :=
       {| Swe.IssueConfig.repo_name := None;
          Swe.IssueConfig.issue_id := Some "123";
          Swe.IssueConfig.base_commit_id := Some "shubhra/linter";
          Swe.IssueConfig.issue_desc := Some "fix the linter errors" |};
     Swe.CoderAgentArgs.model_env_config := model_env_config;
     Swe.CoderAgentArgs.agent_logs_dir := "logs";
     Swe.CoderAgentArgs.is_benchmark := false |}.

(** A model environment that names the Azure backend with its endpoint and
    no API key, and one whose endpoint is not a string. *)
Definition azure_without_key : gmap string Swe.pyval :=
  <["azure_endpoint" := Swe.PyStr "azure-end-point"]>
    (<["model_env" := Swe.PyStr "azure"]> ∅).
Definition azure_endpoint_not_str : gmap string Swe.pyval :=
  <["azure_endpoint" := Swe.PyInt 443]>
    (<["model_env" := Swe.PyStr "azure"]> ∅).

(** A final answer whose return values [dumps] cannot serialize. *)
Definition unserializable_finish : Swe.pyval :=
  Swe.PyAgentFinish (Swe.PyAgentAction "edit" (Swe.PyStr "1:2") "") "".

(** The world some time after the construction, when the agent is run. *)
Definition world2 : Swe.world :=
  {| Swe.environ := Swe.environ world1;
     Swe.now := {| Swe.year := 2024; Swe.month := 5; Swe.day := 17;
                   Swe.hour := 9; Swe.minute := 42; Swe.second := 55 |};
     Swe.trace := Swe.trace world1;
     Swe.logged := Swe.logged world1 |}.

End Main.

(** ** Vocabulary of the properties *)

(** Every character of [s] satisfies [P]. *)
Fixpoint all_chars (P : ascii -> bool) (s : string) : bool :=
  match s with
  | EmptyString => true
  | String a s' => P a && all_chars P s'
  end.

(** The characters of a decimal numeral. *)
Definition numeral_char (c : ascii) : bool :=
  match Ascii.is_nat c with
  | Some _ => true
  | None => Ascii.eqb c "-"%char
  end.


Section Vocabulary.
Import Swe.
Context {K : Constants} {L : PyLib} {X : Externals}.

(** Raising or returning, from the exception if there is one. *)
Definition outcome (e : option exn) : result unit :=
  match e with Some e => Raise e | None => Ok () end.

(** [a[1] if len(a) > 1 else None] *)
Definition tool_output (a : pyval) : result pyval :=
  n ← py_len a; if (1 <? n)%nat then subscript a 1 else Ok PyNone.

(** The record that [add_in_logs] appends for a step output, when it appends
    one: for an [AgentFinish], and for a non-empty list whose first element
    starts with an [AgentAction]. *)
Definition log_entry (step_output : pyval) : option pyval :=
  match step_output with
  | PyAgentFinish return_values _ =>
      Some (PyDict [(PyStr "agent_action", PyStr "agent_finish");
                    (PyStr "agent_output", return_values)])
  | PyList (a :: _) =>
      match subscript a 0 with
      | Ok (PyAgentAction tool tool_input log) =>
          match tool_output a with
          | Ok tool_out =>
              Some (PyDict [(PyStr "agent_action",
                             PyStr (AgentAction_json tool tool_input log));
                            (PyStr "tool_output", tool_out)])
          | Raise _ => None
          end
      | _ => None
      end
  | _ => None
  end.

Definition recorded (step_output : pyval) : bool :=
  match log_entry step_output with Some _ => true | None => false end.

(** The exception [add_in_logs] raises on a step output, when it raises. *)
Definition callback_error (step_output : pyval) : option exn :=
  match step_output with
  | PyList (a :: _) =>
      match subscript a 0 with
      | Raise e => Some e
      | Ok (PyAgentAction _ _ _) =>
          match tool_output a with Raise e => Some e | Ok _ => None end
      | Ok _ => None
      end
  | _ => None
  end.

(** The callback invoked on each step output in turn, each invocation
    starting from the state the previous one left, whether it returned or
    raised. *)
Definition call_all (step_outputs : list pyval) (s : obj) : obj :=
  foldl (fun s step_output => snd (add_in_logs step_output s)) s step_outputs.

(** The step outputs that reach a step callback: those of the steps taken
    by an agent of the crew. *)
Definition delivered (crew : Crew) (steps : list (nat * pyval)) : list pyval :=
  omap (fun step => match agents crew !! fst step with
                    | Some _ => Some (snd step)
                    | None => None
                    end) steps.

(** The step outputs handled before the first one on which the callback
    raises, and that exception. *)
Fixpoint handled (step_outputs : list pyval) : list pyval * option exn :=
  match step_outputs with
  | [] => ([], None)
  | o :: rest =>
      match callback_error o with
      | Some e => ([], Some e)
      | None => (o :: fst (handled rest), snd (handled rest))
      end
  end.

(** The records one execution of a crew adds to the log, and the exception
    it ends with, if any. *)
Definition crew_entries (crew : Crew) : list pyval :=
  omap log_entry (fst (handled (delivered crew (fst (crew_kickoff crew))))).
Definition crew_error (crew : Crew) : option exn :=
  match snd (handled (delivered crew (fst (crew_kickoff crew)))) with
  | Some e => Some e
  | None => snd (crew_kickoff crew)
  end.

(** The calls and objects of [run], from the agent and from what the
    earlier calls returned. *)
Definition create_call (self : CoderAgent) : event :=
  EvExecute (entity self) LOCALWORKSPACE_CREATEWORKSPACEACTION [].

Definition clone_params (self : CoderAgent) (workspace_id : pyval)
  : list (string * pyval) :=
  [("workspace_id", workspace_id);
   ("repo_name", of_optional (IssueConfig.repo_name (issue_config self)));
   ("branch_name", of_optional (IssueConfig.base_commit_id (issue_config self)))].

Definition clone_call (self : CoderAgent) (workspace_id : pyval) : event :=
  EvExecute (entity self) CMDMANAGERTOOL_GITHUBCLONECMD
            (clone_params self workspace_id).

(** The two formatted prompts: the task description and the backstory. *)
Definition prompts (self : CoderAgent) (workspace_id : pyval)
  : result (string * string) :=
  dir ← repo_name_dir (repo_name self);
  issue_added_instruction ←
    str_format (issue_description_tmpl self)
      [("issue", of_optional (IssueConfig.issue_desc (issue_config self)));
       ("issue_id", of_optional (IssueConfig.issue_id (issue_config self)));
       ("repo_name_dir", PyStr dir)];
  backstory_added_instruction ←
    str_format (agent_backstory_tmpl self)
      [("workspace_id", workspace_id);
       ("repo_name", of_optional (repo_name self));
       ("repo_name_dir", PyStr dir);
       ("base_commit",
        of_optional (IssueConfig.base_commit_id (issue_config self)))];
  Ok (issue_added_instruction, backstory_added_instruction).

Definition swe_agent_of (self : CoderAgent) (llm : LLM) (p : string * string)
  : Agent := make_swe_agent self (snd p) llm PyNone.
Definition coding_task_of (self : CoderAgent) (llm : LLM) (p : string * string)
  : Task := make_coding_task self (fst p) (swe_agent_of self llm p).
Definition reviewer_agent_of (self : CoderAgent) (llm : LLM) : Agent :=
  make_reviewer_agent self llm PyNone.
Definition review_task_of (self : CoderAgent) (llm : LLM) (p : string * string)
  : Task := make_review_task (reviewer_agent_of self llm) (coding_task_of self llm p).
Definition crew_of (self : CoderAgent) (llm : LLM) (p : string * string) : Crew :=
  {| agents := [swe_agent_of self llm p];
     tasks := [coding_task_of self llm p];
     crew_memory := true |}.

(** The calls of a run up to and including the start of the crew. *)
Definition calls_until_kickoff (self : CoderAgent) (llm : LLM)
    (workspace_id : pyval) (p : string * string) : list event :=
  [EvLLM llm; create_call self; clone_call self workspace_id;
   EvAgent (swe_agent_of self llm p); EvTask (coding_task_of self llm p);
   EvAgent (reviewer_agent_of self llm); EvTask (review_task_of self llm p);
   EvCrew (crew_of self llm p); EvKickoff (crew_of self llm p)].

(** Kinds of calls. *)
Definition is_file_event (ev : event) : bool :=
  match ev with EvOpen _ _ _ | EvWrite _ _ => true | _ => false end.
Definition is_create (ev : event) : bool :=
  match ev with
  | EvExecute _ LOCALWORKSPACE_CREATEWORKSPACEACTION _ => true
  | _ => false
  end.
Definition is_clone (ev : event) : bool :=
  match ev with
  | EvExecute _ CMDMANAGERTOOL_GITHUBCLONECMD _ => true
  | _ => false
  end.
Definition is_construction (ev : event) : bool :=
  match ev with EvAgent _ | EvTask _ | EvCrew _ => true | _ => false end.
Definition is_llm_construction (ev : event) : bool :=
  match ev with EvLLM _ => true | _ => false end.

(** The value of a keyword parameter of a call. *)
Fixpoint param (k : string) (params : list (string * pyval)) : option pyval :=
  match params with
  | [] => None
  | (k', v) :: params' => if String.eqb k' k then Some v else param k params'
  end.
Definition branch_name_of (ev : event) : option pyval :=
  match ev with EvExecute _ _ params => param "branch_name" params | _ => None end.

(** The agent after a run that got as far as saving the history of [crew]. *)
Definition saved_agent (self : CoderAgent) (crew : Crew) : CoderAgent :=
  let id := IssueConfig.issue_id (issue_config self) in
  with_logs self
    (if bool_decide (id ∈ agent_logs self) then agent_logs self
     else agent_logs self ++ [id])
    (current_logs self ++ crew_entries crew).

(** The ways a run started in state [s] can go: what it returns or raises,
    the agent it leaves and the calls it has issued. *)
Inductive run_outcome (s : obj)
  : result unit -> CoderAgent -> list event -> Prop :=
  | llm_selection_fails e s1 :
      get_llm PyNone s = (Raise e, s1) ->
      run_outcome s (Raise e) (fst s) []
  | create_fails llm s1 e :
      get_llm PyNone s = (Ok llm, s1) ->
      entity_execute (entity (fst s)) LOCALWORKSPACE_CREATEWORKSPACEACTION []
        = Raise e ->
      run_outcome s (Raise e) (fst s) [EvLLM llm; create_call (fst s)]
  | clone_fails llm s1 resp e :
      get_llm PyNone s = (Ok llm, s1) ->
      entity_execute (entity (fst s)) LOCALWORKSPACE_CREATEWORKSPACEACTION []
        = Ok resp ->
      entity_execute (entity (fst s)) CMDMANAGERTOOL_GITHUBCLONECMD
        (clone_params (fst s) (workspace_id resp)) = Raise e ->
      run_outcome s (Raise e) (fst s)
        [EvLLM llm; create_call (fst s); clone_call (fst s) (workspace_id resp)]
  | prompts_fail llm s1 resp resp' e :
      get_llm PyNone s = (Ok llm, s1) ->
      entity_execute (entity (fst s)) LOCALWORKSPACE_CREATEWORKSPACEACTION []
        = Ok resp ->
      entity_execute (entity (fst s)) CMDMANAGERTOOL_GITHUBCLONECMD
        (clone_params (fst s) (workspace_id resp)) = Ok resp' ->
      prompts (fst s) (workspace_id resp) = Raise e ->
      run_outcome s (Raise e) (fst s)
        [EvLLM llm; create_call (fst s); clone_call (fst s) (workspace_id resp)]
  | crew_fails llm s1 resp resp' p e :
      get_llm PyNone s = (Ok llm, s1) ->
      entity_execute (entity (fst s)) LOCALWORKSPACE_CREATEWORKSPACEACTION []
        = Ok resp ->
      entity_execute (entity (fst s)) CMDMANAGERTOOL_GITHUBCLONECMD
        (clone_params (fst s) (workspace_id resp)) = Ok resp' ->
      prompts (fst s) (workspace_id resp) = Ok p ->
      crew_error (crew_of (fst s) llm p) = Some e ->
      run_outcome s (Raise e)
        (with_logs (fst s) (agent_logs (fst s))
           (current_logs (fst s) ++ crew_entries (crew_of (fst s) llm p)))
        (calls_until_kickoff (fst s) llm (workspace_id resp) p)
  | open_fails llm s1 resp resp' p e :
      get_llm PyNone s = (Ok llm, s1) ->
      entity_execute (entity (fst s)) LOCALWORKSPACE_CREATEWORKSPACEACTION []
        = Ok resp ->
      entity_execute (entity (fst s)) CMDMANAGERTOOL_GITHUBCLONECMD
        (clone_params (fst s) (workspace_id resp)) = Ok resp' ->
      prompts (fst s) (workspace_id resp) = Ok p ->
      crew_error (crew_of (fst s) llm p) = None ->
      file_open (task_output_logs (fst s)) = Raise e ->
      run_outcome s (Raise e) (saved_agent (fst s) (crew_of (fst s) llm p))
        (calls_until_kickoff (fst s) llm (workspace_id resp) p
           ++ [EvOpen (task_output_logs (fst s)) "w" "utf-8"])
  | dumps_fails llm s1 resp resp' p e :
      get_llm PyNone s = (Ok llm, s1) ->
      entity_execute (entity (fst s)) LOCALWORKSPACE_CREATEWORKSPACEACTION []
        = Ok resp ->
      entity_execute (entity (fst s)) CMDMANAGERTOOL_GITHUBCLONECMD
        (clone_params (fst s) (workspace_id resp)) = Ok resp' ->
      prompts (fst s) (workspace_id resp) = Ok p ->
      crew_error (crew_of (fst s) llm p) = None ->
      file_open (task_output_logs (fst s)) = Ok () ->
      json_dumps (agent_logs_dict (saved_agent (fst s) (crew_of (fst s) llm p)))
        = Raise e ->
      run_outcome s (Raise e) (saved_agent (fst s) (crew_of (fst s) llm p))
        (calls_until_kickoff (fst s) llm (workspace_id resp) p
           ++ [EvOpen (task_output_logs (fst s)) "w" "utf-8"])
  | completes llm s1 resp resp' p data :
      get_llm PyNone s = (Ok llm, s1) ->
      entity_execute (entity (fst s)) LOCALWORKSPACE_CREATEWORKSPACEACTION []
        = Ok resp ->
      entity_execute (entity (fst s)) CMDMANAGERTOOL_GITHUBCLONECMD
        (clone_params (fst s) (workspace_id resp)) = Ok resp' ->
      prompts (fst s) (workspace_id resp) = Ok p ->
      crew_error (crew_of (fst s) llm p) = None ->
      file_open (task_output_logs (fst s)) = Ok () ->
      json_dumps (agent_logs_dict (saved_agent (fst s) (crew_of (fst s) llm p)))
        = Ok data ->
      run_outcome s (Ok ()) (saved_agent (fst s) (crew_of (fst s) llm p))
        (calls_until_kickoff (fst s) llm (workspace_id resp) p
           ++ [EvOpen (task_output_logs (fst s)) "w" "utf-8";
               EvWrite (task_output_logs (fst s)) data]).

(** One of the external calls of a run started in [s] raises [e], the LLM
    [llm] having been selected: the workspace creation, or the clone after the
    creation has returned, or the crew execution after the two have returned
    and the prompts have been formatted. *)
Inductive external_failure (s : obj) (llm : LLM) (e : exn) : Prop :=
  | workspace_creation_raises :
      entity_execute (entity (fst s)) LOCALWORKSPACE_CREATEWORKSPACEACTION []
        = Raise e ->
      external_failure s llm e
  | clone_raises resp :
      entity_execute (entity (fst s)) LOCALWORKSPACE_CREATEWORKSPACEACTION []
        = Ok resp ->
      entity_execute (entity (fst s)) CMDMANAGERTOOL_GITHUBCLONECMD
        (clone_params (fst s) (workspace_id resp)) = Raise e ->
      external_failure s llm e
  | crew_execution_raises resp resp' p :
      entity_execute (entity (fst s)) LOCALWORKSPACE_CREATEWORKSPACEACTION []
        = Ok resp ->
      entity_execute (entity (fst s)) CMDMANAGERTOOL_GITHUBCLONECMD
        (clone_params (fst s) (workspace_id resp)) = Ok resp' ->
      prompts (fst s) (workspace_id resp) = Ok p ->
      crew_error (crew_of (fst s) llm p) = Some e ->
      external_failure s llm e.

(** The lines [add_in_logs] sends to the logger for a step output: none
    when it records a tool call or raises, one naming a type otherwise. *)
Definition log_lines (step_output : pyval) : list log_record :=
  match step_output with
  | PyList (a :: _) =>
      match subscript a 0 with
      | Ok (PyAgentAction _ _ _) => []
      | Ok first => [LogTypeOfStepOutput (type_of first)]
      | Raise _ => []
      end
  | _ => [LogTypeIsNotList (type_of step_output)]
  end.

(** The step outputs the agent framework produces: a final answer, or a list
    of non-empty tuples (or lists). *)
Definition well_shaped (step_output : pyval) : bool :=
  match step_output with
  | PyAgentFinish _ _ => true
  | PyList l =>
      forallb (fun a => match a with
                        | PyTuple (_ :: _) | PyList (_ :: _) => true
                        | _ => false
                        end) l
  | _ => false
  end.

(** The calls of a construction that goes through. *)
Definition init_calls : list event :=
  [EvToolSetInit;
   EvGetTools [LOCALWORKSPACE; CMDMANAGERTOOL; HISTORYKEEPER; SUBMITPATCHTOOL];
   EvComposioClient; EvGetEntity "swe-agent";
   EvComposioClient; EvGetEntity "SWE-Agent-Client"].

(** The error of an answer, when it raises. *)
Definition error_of {A} (r : result A) : option exn :=
  match r with Ok _ => None | Raise e => Some e end.

(** The six calls of a construction started in world [w], each with the
    error it answers with, if it raises. *)
Definition init_answers (w : world) : list (event * option exn) :=
  let apps := [LOCALWORKSPACE; CMDMANAGERTOOL; HISTORYKEEPER; SUBMITPATCHTOOL] in
  [(EvToolSetInit, error_of toolset_init);
   (EvGetTools apps, error_of (get_tools apps));
   (EvComposioClient,
    error_of (composio_client (trace w ++ [EvToolSetInit; EvGetTools apps])));
   (EvGetEntity "swe-agent", error_of (get_entity "swe-agent"));
   (EvComposioClient,
    error_of (composio_client
                (trace w ++ [EvToolSetInit; EvGetTools apps; EvComposioClient;
                             EvGetEntity "swe-agent"])));
   (EvGetEntity "SWE-Agent-Client", error_of (get_entity "SWE-Agent-Client"))].

(** Issuing calls in turn until one raises: the calls issued, the one that
    raises included, and its error. *)
Fixpoint until_first_raise (answers : list (event * option exn))
  : list event * option exn :=
  match answers with
  | [] => ([], None)
  | (ev, Some e) :: _ => ([ev], Some e)
  | (ev, None) :: rest =>
      (ev :: fst (until_first_raise rest), snd (until_first_raise rest))
  end.



(** The handler [setup_logger] adds. *)
Definition the_handler : RichHandler :=
  {| show_time := false; show_path := false; handler_level := DEBUG |}.
End Vocabulary.

(** * Properties *)

(** ** Strings *)

Lemma app_cons (a : ascii) (s t : string) : String a s +:+ t = String a (s +:+ t).
Proof. reflexivity. Qed.

Lemma app_nil_l (t : string) : "" +:+ t = t.
Proof. reflexivity. Qed.

Lemma app_assoc_str (s t u : string) : (s +:+ t) +:+ u = s +:+ (t +:+ u).
Proof. induction s as [|a s IH]; [done|]. by rewrite !app_cons, IH. Qed.

Lemma app_length_str (s t : string) :
  String.length (s +:+ t) = (String.length s + String.length t)%nat.
Proof. induction s as [|a s IH]; [done|]. rewrite app_cons. simpl. by rewrite IH. Qed.

Lemma pretty_N_char_numeral (x : N) : numeral_char (pretty_N_char x) = true.
Proof. unfold pretty_N_char. repeat case_match; reflexivity. Qed.

Lemma pretty_N_go_numeral (x : N) (s : string) :
  all_chars numeral_char s = true ->
  all_chars numeral_char (pretty_N_go x s) = true.
Proof.
  revert s. induction (N.lt_wf_0 x) as [x _ IH]; intros s Hs.
  destruct (decide (x = 0)%N) as [->|Hx]; [by rewrite pretty_N_go_0|].
  rewrite pretty_N_go_step by lia.
  apply IH; [apply N.div_lt; lia|].
  simpl. by rewrite pretty_N_char_numeral.
Qed.

Lemma pretty_N_numeral (x : N) : all_chars numeral_char (pretty x) = true.
Proof.
  unfold pretty, pretty_N. case_decide; [done|]. by apply pretty_N_go_numeral.
Qed.

(** [str] of an integer is made of digits and the minus sign. *)
Lemma pretty_Z_numeral (z : Z) : all_chars numeral_char (pretty z) = true.
Proof.
  destruct z as [|p|p]; [done|apply pretty_N_numeral|].
  unfold pretty, pretty_Z. rewrite app_cons, app_nil_l. simpl.
  apply pretty_N_numeral.
Qed.

Section Reading.
Import EditCmd.

Lemma strip_prefix_app (p s : string) : strip_prefix p (p +:+ s) = Some s.
Proof.
  induction p as [|a p IH]; [done|].
  rewrite app_cons. simpl. by rewrite Ascii.eqb_refl.
Qed.

Lemma strip_suffix_app (p s : string) : strip_suffix p (s +:+ p) = Some s.
Proof.
  induction s as [|a s IH].
  - rewrite app_nil_l. destruct p; simpl; by rewrite ?Ascii.eqb_refl, ?String.eqb_refl.
  - rewrite app_cons.
    assert (String.eqb (String a (s +:+ p)) p = false) as Hne.
    { apply String.eqb_neq. intros Heq.
      apply (f_equal String.length) in Heq. simpl in Heq.
      rewrite app_length_str in Heq. lia. }
    simpl. simpl in Hne. rewrite Hne, IH. done.
Qed.

Lemma cut_at_app (c : ascii) (l r : string) :
  all_chars (fun a => negb (Ascii.eqb a c)) l = true ->
  cut_at c (l +:+ String c r) = Some (l, r).
Proof.
  induction l as [|a l IH]; intros Hl.
  - rewrite app_nil_l. simpl. by rewrite Ascii.eqb_refl.
  - simpl in Hl. apply andb_prop in Hl as [Ha Hl].
    rewrite app_cons. simpl.
    destruct (Ascii.eqb a c); [done|]. by rewrite (IH Hl).
Qed.

Lemma all_chars_impl (P Q : ascii -> bool) (s : string) :
  (forall a, P a = true -> Q a = true) ->
  all_chars P s = true -> all_chars Q s = true.
Proof.
  intros HPQ. induction s as [|a s IH]; [done|]. simpl.
  intros [Ha Hs]%andb_prop. by rewrite (HPQ _ Ha), (IH Hs).
Qed.

Lemma numeral_no_colon (z : Z) :
  all_chars (fun a => negb (Ascii.eqb a ":"%char)) (pretty z) = true.
Proof.
  eapply all_chars_impl; [|apply pretty_Z_numeral].
  intros a. unfold numeral_char.
  destruct (Ascii.eqb_spec a ":"%char) as [->|]; [done|done].
Qed.

Lemma numeral_no_space (z : Z) :
  all_chars (fun a => negb (Ascii.eqb a " "%char)) (pretty z) = true.
Proof.
  eapply all_chars_impl; [|apply pretty_Z_numeral].
  intros a. unfold numeral_char.
  destruct (Ascii.eqb_spec a " "%char) as [->|]; [done|done].
Qed.

Local Arguments strip_prefix : simpl never.
Local Arguments strip_suffix : simpl never.
Local Arguments cut_at : simpl never.

(** Taking the command apart gives back the two numerals and the text. *)
Lemma parse_full_command (request_data : EditFileRequest) :
  parse_command (full_command request_data)
  = Some (pretty (start_line request_data), pretty (end_line request_data),
          replacement_text request_data).
Proof.
  unfold parse_command, full_command.
  rewrite strip_prefix_app. simpl.
  rewrite (app_cons ":" ""), app_nil_l.
  rewrite cut_at_app by apply numeral_no_colon. simpl.
  rewrite (app_cons " " "<< "), cut_at_app by apply numeral_no_space. simpl.
  rewrite app_nil_l.
  by rewrite strip_suffix_app.
Qed.

(** Two requests with the same command are the same request. *)
Lemma full_command_inj (r1 r2 : EditFileRequest) :
  full_command r1 = full_command r2 -> r1 = r2.
Proof.
  intros Heq. pose proof (parse_full_command r1) as H1.
  rewrite Heq, parse_full_command in H1.
  destruct r1, r2; simplify_eq/=. done.
Qed.
End Reading.

(** ** The EditFile action *)

Section EditFile.
Import EditCmd.

(** C3. For every EditFile request, the command string built by
    [EditFile.execute] contains the decimal numerals of [start_line] and of
    [end_line] and contains [replacement_text] verbatim; the text stands
    between two occurrences of the same marker, after the line feed that
    ends the opening marker line and before the line feed that starts the
    closing one, and reading the command back returns the two numerals and
    the text unchanged. *)
Theorem full_command_embeds_request (request_data : EditFileRequest) :
  contains (pretty (start_line request_data)) (full_command request_data)
  /\ contains (pretty (end_line request_data)) (full_command request_data)
  /\ contains (replacement_text request_data) (full_command request_data)
  /\ (exists header,
        full_command request_data
        = header +:+ end_of_edit +:+ LF
            +:+ replacement_text request_data +:+ LF +:+ end_of_edit)
  /\ parse_command (full_command request_data)
     = Some (pretty (start_line request_data),
             pretty (end_line request_data),
             replacement_text request_data).
Proof.
  repeat split.
  - exists "edit ". eexists. reflexivity.
  - exists ("edit " +:+ pretty (start_line request_data) +:+ ":"). eexists.
    unfold full_command. by rewrite !app_assoc_str.
  - exists ("edit " +:+ pretty (start_line request_data) +:+ ":"
              +:+ pretty (end_line request_data) +:+ " << " +:+ end_of_edit
              +:+ LF).
    exists (LF +:+ end_of_edit).
    unfold full_command. by rewrite !app_assoc_str.
  - exists ("edit " +:+ pretty (start_line request_data) +:+ ":"
              +:+ pretty (end_line request_data) +:+ " << ").
    unfold full_command. by rewrite !app_assoc_str.
  - apply parse_full_command.
Qed.

(** C6. [process_output] returns the return code it is given; for return
    code 0 it returns the output it is given; for any other return code the
    response built from its result is a failure and still carries the
    output it was given. *)
Theorem process_output_passes_through (out : string) (rc : Z) :
  snd (process_output out rc) = rc
  /\ (rc = 0 -> fst (process_output out rc) = out)
  /\ (rc <> 0 ->
      is_failure {| output := fst (process_output out rc);
                    return_code := snd (process_output out rc) |} = true
      /\ fst (process_output out rc) = out).
Proof.
  repeat split; try done.
  unfold is_failure. simpl. by apply negb_true_iff, Z.eqb_neq.
Qed.

Section Execute.
Context {Workspace : Type}.
Variable _setup : EditFileRequest -> Workspace -> result Workspace.
Variable communicate :
  string -> Workspace -> result (BaseCmdResponse * Workspace).

(** What the action returns is what the workspace answered to the
    command of the request. *)
Lemma execute_body_response request_data w response w' :
  execute_body _setup communicate request_data w = Ok (response, w') ->
  exists w1 workspace_response,
    _setup request_data w = Ok w1
    /\ communicate (full_command request_data) w1
       = Ok (workspace_response, w')
    /\ output response = cmd_output workspace_response
    /\ return_code response = cmd_return_code workspace_response.
Proof.
  unfold execute_body. intros Hex.
  destruct (_setup request_data w) as [w1|]; [|done].
  destruct (communicate _ w1) as [[workspace_response w2]|] eqn:Hc; [|done].
  simplify_eq/=. by exists w1, workspace_response.
Qed.

(** The recorder adds one record per call that returns, at the end of the
    session log. *)
Lemma execute_records request_data w log response w' log' :
  execute _setup communicate request_data (w, log) = Ok (response, (w', log')) ->
  log' = (log ++ [(request_data, response)])%list.
Proof.
  unfold execute, history_recorder. simpl.
  destruct (execute_body _ _ _ _) as [[r w1]|]; [|done].
  by intros [= -> -> ->].
Qed.

(** After [N] sequential calls that return, the session log has gained
    [N] records, in the order of the calls. *)
Lemma execute_all_records requests w log responses w' log' :
  execute_all _setup communicate requests (w, log)
  = Ok (responses, (w', log')) ->
  length responses = length requests
  /\ log' = (log ++ zip requests responses)%list.
Proof.
  revert w log responses.
  induction requests as [|request_data rest IH]; intros w log responses.
  - simpl. intros [= <- <- <-]. by rewrite app_nil_r.
  - simpl.
    destruct (execute _ _ request_data (w, log))
      as [[response [w1 log1]]|] eqn:Hex; [|done].
    destruct (execute_all _ _ rest (w1, log1))
      as [[responses' [w2 log2]]|] eqn:Hrest; [|done].
    intros [= <- <- <-].
    apply execute_records in Hex as ->.
    apply IH in Hrest as [Hlen ->].
    split; [simpl; by rewrite Hlen|].
    by rewrite <- app_assoc.
Qed.
End Execute.
End EditFile.

(** ** The coder agent *)

Section CoderAgentFacts.
Import Swe.
Context {K : Constants} {L : PyLib} {X : Externals}.
Local Close Scope string_scope.
Local Close Scope Z_scope.

Lemma with_logs_same (self : CoderAgent) :
  with_logs self (agent_logs self) (current_logs self) = self.
Proof. by destruct self. Qed.

Ltac settle_call :=
  eexists; rewrite ?app_nil_r, ?with_logs_same; split; [reflexivity|done].

(** What one call of the step callback does: it appends the record of the
    step output, if it has one, raises the callback error of the step output,
    if it has one, and touches nothing else of the agent, nor the calls
    issued, the environment or the clock. *)
Lemma add_in_logs_run (step_output : pyval) (s : obj) :
  exists w',
    add_in_logs step_output s
    = (outcome (callback_error step_output),
       (with_logs (fst s) (agent_logs (fst s))
          (current_logs (fst s) ++ option_list (log_entry step_output)), w'))
    /\ trace w' = trace (snd s)
    /\ environ w' = environ (snd s)
    /\ now w' = now (snd s).
Proof.
  destruct s as [self w].
  unfold add_in_logs, log_entry, callback_error, tool_output.
  destruct step_output as [| | |[|a l]| | | |]; simpl; try settle_call.
  unfold mbind, M_bind, of_result; simpl.
  destruct (subscript a 0) as [[]|]; simpl; try settle_call.
  destruct (py_len a) as [n|]; simpl; try settle_call.
  destruct (1 <? n)%nat; simpl; try settle_call.
  destruct (subscript a 1); simpl; settle_call.
Qed.

(** The framework's steps: the callback handles the delivered step outputs in
    order, up to the first one on which it raises. *)
Lemma drive_run (crew : Crew) (steps : list (nat * pyval)) (s : obj) :
  exists w',
    drive crew steps s
    = (outcome (snd (handled (delivered crew steps))),
       (with_logs (fst s) (agent_logs (fst s))
          (current_logs (fst s)
             ++ omap log_entry (fst (handled (delivered crew steps)))), w'))
    /\ trace w' = trace (snd s)
    /\ environ w' = environ (snd s)
    /\ now w' = now (snd s).
Proof.
  revert s. induction steps as [|[i step_output] steps IH]; intros s.
  - exists (snd s). simpl. rewrite app_nil_r, with_logs_same. by destruct s.
  - simpl. unfold delivered. simpl. fold (delivered crew steps).
    destruct (agents crew !! i) as [a|]; simpl.
    + destruct (add_in_logs_run step_output s) as (w1 & Hcall & Ht & He & Hn).
      unfold mbind, M_bind, call_step_callback. destruct (step_callback a).
      rewrite Hcall.
      destruct (callback_error step_output) as [e|] eqn:Herr; simpl.
      * exists w1. split; [|done].
        assert (log_entry step_output = None) as ->; [|done].
        revert Herr. unfold callback_error, log_entry.
        repeat case_match; simplify_eq; done.
      * destruct (IH (with_logs (fst s) (agent_logs (fst s))
                        (current_logs (fst s) ++ option_list (log_entry step_output)),
                      w1)) as (w2 & Hrest & Ht2 & He2 & Hn2).
        exists w2. rewrite Hrest. simpl. split; [|by rewrite Ht2, He2, Hn2].
        rewrite <- app_assoc.
        by destruct (log_entry step_output).
    + unfold mbind, M_bind. simpl. apply IH.
Qed.

(** One execution of a crew: the call is issued, the log gains the records
    of the crew, and the execution raises the error of the crew, if any. *)
Lemma kickoff_run (crew : Crew) (s : obj) :
  exists w',
    kickoff crew s
    = (outcome (crew_error crew),
       (with_logs (fst s) (agent_logs (fst s))
          (current_logs (fst s) ++ crew_entries crew), w'))
    /\ trace w' = trace (snd s) ++ [EvKickoff crew]
    /\ environ w' = environ (snd s)
    /\ now w' = now (snd s).
Proof.
  destruct s as [self w]. unfold kickoff, crew_error, crew_entries.
  unfold mbind at 1, M_bind at 1. simpl.
  destruct (drive_run crew (fst (crew_kickoff crew))
              (self, record_call (EvKickoff crew) w))
    as (w1 & Hd & Ht & He & Hn).
  unfold mbind, M_bind. rewrite Hd. simpl in *.
  exists w1. split; [|done].
  destruct (snd (handled _)) as [e|]; simpl; [done|].
  by destruct (snd (crew_kickoff crew)).
Qed.

(** Selecting the LLM leaves the agent as it is, reads no clock, and issues
    one call, the construction of the client, exactly when it returns. *)
Lemma get_llm_run (callbacks : pyval) (s : obj) :
  exists r w',
    get_llm callbacks s = (r, (fst s, w'))
    /\ trace w'
       = trace (snd s) ++ match r with Ok llm => [EvLLM llm] | Raise _ => [] end
    /\ now w' = now (snd s)
    /\ logged w' = logged (snd s).
Proof.
  destruct s as [self w]. unfold get_llm.
  unfold mbind, M_bind, get_self, in_world, of_result, environ_get; simpl.
  destruct (eq_str _ MODEL_ENV_OPENAI); simpl.
  { by eexists _, _. }
  destruct (eq_str _ MODEL_ENV_AZURE); simpl; cycle 1.
  { eexists _, _. split; [reflexivity|]. simpl. by rewrite app_nil_r. }
  destruct (dict_item _ KEY_AZURE_ENDPOINT) as [v1|]; simpl; cycle 1.
  { eexists _, _. split; [reflexivity|]. simpl. by rewrite app_nil_r. }
  unfold environ_set.
  destruct v1 as [| |s1| | | | |]; simpl;
    try (eexists _, _; split; [reflexivity|]; simpl; by rewrite app_nil_r).
  destruct (has_nul s1); simpl.
  { eexists _, _. split; [reflexivity|]. simpl. by rewrite app_nil_r. }
  destruct (dict_item _ KEY_API_KEY) as [v2|]; simpl; cycle 1.
  { eexists _, _. split; [reflexivity|]. simpl. by rewrite app_nil_r. }
  destruct v2 as [| |s2| | | | |]; simpl;
    try (eexists _, _; split; [reflexivity|]; simpl; by rewrite app_nil_r).
  destruct (has_nul s2); simpl.
  { eexists _, _. split; [reflexivity|]. simpl. by rewrite app_nil_r. }
  by eexists _, _.
Qed.

(** Saving the history: the key is bound, the file is opened for writing in
    UTF-8, the dictionary is serialized and written. *)
Lemma save_history_run (instance_id : option string) (s : obj) :
  let self' :=
    with_logs (fst s)
      (if bool_decide (instance_id ∈ agent_logs (fst s)) then agent_logs (fst s)
       else agent_logs (fst s) ++ [instance_id])
      (current_logs (fst s)) in
  let path := task_output_logs (fst s) in
  let opened := record_call (EvOpen path "w" "utf-8") (snd s) in
  save_history instance_id s
  = match file_open path with
    | Raise e => (Raise e, (self', opened))
    | Ok _ =>
        match json_dumps (agent_logs_dict self') with
        | Raise e => (Raise e, (self', opened))
        | Ok data => (Ok (), (self', record_call (EvWrite path data) opened))
        end
    end.
Proof.
  destruct s as [self w]. unfold save_history.
  unfold mbind, M_bind, agent_logs_setitem, get_self, set_logs, in_world,
    extcall, of_result; simpl.
  destruct (file_open _); [|done]. simpl.
  by destruct (json_dumps _).
Qed.

Ltac close_run :=
  split; [reflexivity|]; simpl;
  split; [match goal with H : trace _ = _ |- _ => rewrite H end;
          rewrite <- ?app_assoc; reflexivity|];
  split; [done|].

Lemma run_has_outcome (s : obj) :
  exists r self' w' ev,
    run s = (r, (self', w'))
    /\ trace w' = trace (snd s) ++ ev
    /\ now w' = now (snd s)
    /\ run_outcome s r self' ev.
Proof.
  destruct s as [self w].
  destruct (get_llm_run PyNone (self, w)) as (r0 & w1 & Hllm & Ht1 & Hn1 & Hl1).
  unfold run. unfold mbind at 1, M_bind at 1. rewrite Hllm.
  destruct r0 as [llm|e]; simpl in *.
  2:{ exists (Raise e), self, w1, []. close_run. by eapply llm_selection_fails. }
  unfold mbind at 1, M_bind at 1, get_self at 1. simpl.
  unfold mbind at 1, M_bind at 1, in_world at 1, extcall at 1. simpl.
  destruct (entity_execute (entity self) LOCALWORKSPACE_CREATEWORKSPACEACTION [])
    as [resp|e] eqn:Hcreate.
  2:{ eexists _, _, _, _. close_run. by eapply create_fails. }
  unfold mbind at 1, M_bind at 1, in_world at 1, logger_info at 1. simpl.
  unfold mbind at 1, M_bind at 1, in_world at 1, extcall at 1. simpl.
  fold (clone_params self (workspace_id resp)).
  destruct (entity_execute (entity self) CMDMANAGERTOOL_GITHUBCLONECMD _)
    as [resp'|e] eqn:Hclone.
  2:{ eexists _, _, _, _. close_run. by eapply clone_fails. }
  pose proof (eq_refl (prompts self (workspace_id resp))) as Hp.
  unfold prompts at 2 in Hp.
  unfold mbind at 1, M_bind at 1, of_result at 1.
  unfold mbind at 1, result_bind at 1 in Hp.
  destruct (repo_name_dir (repo_name self)) as [dir|e].
  2:{ eexists _, _, _, _. close_run. by eapply prompts_fail. }
  unfold mbind at 1, M_bind at 1, of_result at 1.
  unfold mbind at 1, result_bind at 1 in Hp.
  destruct (str_format (issue_description_tmpl self) _) as [instr|e].
  2:{ eexists _, _, _, _. close_run. by eapply prompts_fail. }
  unfold mbind at 1, M_bind at 1, of_result at 1.
  unfold mbind at 1, M_bind at 1, of_result at 1.
  unfold mbind at 1, result_bind at 1 in Hp.
  destruct (str_format (agent_backstory_tmpl self) _) as [backstory|e].
  2:{ eexists _, _, _, _. close_run. by eapply prompts_fail. }
  unfold mbind at 1, M_bind at 1, in_world at 1, logger_info at 1. simpl.
  do 5 (unfold mbind at 1, M_bind at 1, in_world at 1, extcall at 1; simpl).
  change {| agents := [make_swe_agent self backstory llm PyNone];
            tasks := [make_coding_task self instr
                        (make_swe_agent self backstory llm PyNone)];
            crew_memory := true |}
    with (crew_of self llm (instr, backstory)).
  set (crew := crew_of self llm (instr, backstory)) in *.
  match goal with |- context [(kickoff crew ≫= _) ?s0] =>
    destruct (kickoff_run crew s0) as (wk & Hk & Htk & Hek & Hnk)
  end.
  unfold mbind at 1, M_bind at 1. rewrite Hk. simpl in Htk, Hnk |- *.
  destruct (crew_error crew) as [e|] eqn:Hcrew; simpl.
  { eexists _, _, _, _. split; [reflexivity|]. simpl.
    split; [rewrite Htk, Ht1, <- ?app_assoc; reflexivity|].
    split; [congruence|]. by eapply crew_fails. }
  rewrite save_history_run. simpl.
  change (with_logs (with_logs self _ _) _ _) with (saved_agent self crew).
  destruct (file_open (task_output_logs self)) as [[]|e] eqn:Hopen.
  2:{ eexists _, _, _, _. split; [reflexivity|]. simpl.
      split; [rewrite Htk, Ht1, <- ?app_assoc; reflexivity|].
      split; [congruence|]. by eapply open_fails. }
  destruct (json_dumps (agent_logs_dict (saved_agent self crew)))
    as [data|e] eqn:Hdumps.
  2:{ eexists _, _, _, _. split; [reflexivity|]. simpl.
      split; [rewrite Htk, Ht1, <- ?app_assoc; reflexivity|].
      split; [congruence|]. by eapply dumps_fails. }
  eexists _, _, _, _. split; [reflexivity|]. simpl.
  split; [rewrite Htk, Ht1, <- ?app_assoc; reflexivity|].
  split; [congruence|]. by eapply completes.
Qed.

(** *** The step callback *)

Lemma call_all_logs (step_outputs : list pyval) (s : obj) :
  current_logs (fst (call_all step_outputs s))
  = current_logs (fst s) ++ omap log_entry step_outputs.
Proof.
  revert s. induction step_outputs as [|o rest IH]; intros s.
  - simpl. by rewrite app_nil_r.
  - unfold call_all. simpl. fold (call_all rest (snd (add_in_logs o s))).
    rewrite IH.
    destruct (add_in_logs_run o s) as (w' & -> & _). simpl.
    rewrite <- app_assoc. by destruct (log_entry o).
Qed.

Lemma omap_log_entry_length (step_outputs : list pyval) :
  length (omap log_entry step_outputs) = length (filter (fun o => recorded o = true) step_outputs).
Proof.
  induction step_outputs as [|o rest IH]; [done|].
  rewrite filter_cons. simpl.
  destruct (decide (recorded o = true)) as [Hr|Hr];
    unfold recorded in Hr; destruct (log_entry o); simpl; try done.
  f_equal. apply IH.
Qed.

(** C1, as amended. After [N] sequential invocations of the step callback,
    [current_logs] has gained, in the order of the invocations, one entry for
    each invocation that returns and whose step output is an [AgentFinish] or
    a non-empty list whose first element starts with an [AgentAction], and
    none for the other invocations: it has gained as many entries as there
    are such invocations, hence at most [N]. *)
Theorem current_logs_after_callbacks (step_outputs : list pyval) (s : obj) :
  current_logs (fst (call_all step_outputs s))
  = current_logs (fst s) ++ omap log_entry step_outputs
  /\ length (current_logs (fst (call_all step_outputs s)))
     = length (current_logs (fst s))
       + length (filter (fun o => recorded o = true) step_outputs)
  /\ length (current_logs (fst (call_all step_outputs s)))
     <= length (current_logs (fst s)) + length step_outputs.
Proof.
  rewrite call_all_logs, length_app, omap_log_entry_length.
  split; [done|]. split; [done|].
  apply Nat.add_le_mono_l, length_filter.
Qed.

(** *** Construction *)

(** C5. Constructing a [CoderAgent] from an issue configuration whose
    [issue_id] is missing or empty raises [ValueError] and leaves the world
    as it was: no call has been issued, to the toolset, the Composio client or
    the entity lookup. *)
Theorem init_requires_issue_id (args : CoderAgentArgs.t) (w : world) :
  IssueConfig.issue_id (CoderAgentArgs.issue_config args) = None
  \/ IssueConfig.issue_id (CoderAgentArgs.issue_config args) = Some EmptyString ->
  __init__ args w = (Raise (ValueError "no git-issue configuration is found"), w).
Proof.
  intros Hid. unfold __init__.
  by destruct Hid as [-> | ->].
Qed.

(** An agent that has been constructed has a non-empty issue identifier, no
    log yet, and a log file named at the time of its construction. *)
Lemma init_returns (args : CoderAgentArgs.t) (w : world) (self : CoderAgent)
    (w' : world) :
  __init__ args w = (Ok self, w') ->
  (exists id, IssueConfig.issue_id (issue_config self) = Some id
              /\ id <> EmptyString)
  /\ issue_config self = CoderAgentArgs.issue_config args
  /\ model_env self = CoderAgentArgs.model_env_config args
  /\ agent_logs self = []
  /\ current_logs self = []
  /\ task_output_logs self
     = path_join (CoderAgentArgs.agent_logs_dir args)
         (String.append AGENT_LOGS_JSON_PATH
            (strftime (now w) "%m_%d_%Y_%H_%M_%S")).
Proof.
  unfold __init__, get_composio_entity.
  destruct (truthy _) eqn:Hid; simpl; [|done].
  unfold mbind, M_bind, extcall, new_composio_client, datetime_now; simpl.
  destruct toolset_init; [|done].
  destruct (get_tools _); [|done]. simpl.
  destruct (composio_client _); [|done].
  destruct (get_entity "swe-agent"); [|done]. simpl.
  destruct (composio_client _); [|done].
  destruct (get_entity "SWE-Agent-Client"); [|done].
  intros [= <- <-]. simpl. repeat split; try done.
  unfold truthy in Hid.
  destruct (IssueConfig.issue_id _) as [id|]; [|done].
  exists id. split; [done|]. intros ->. done.
Qed.

(** *** Selecting the LLM *)

Lemma eq_str_true (v : pyval) (s : string) : eq_str v s = true <-> v = PyStr s.
Proof.
  destruct v; simpl; try (split; [done|by intros [=]]).
  rewrite String.eqb_eq. split; [by intros ->|by intros [= ->]].
Qed.

Lemma eq_str_false (v : pyval) (s : string) : eq_str v s = false <-> v <> PyStr s.
Proof. rewrite <- eq_str_true. by destruct (eq_str v s). Qed.

(** With the OpenAI key, the client is a [ChatOpenAI] whose API key is the
    value of the environment variable [OPANAI_API_KEY]. *)
Lemma get_llm_openai (callbacks : pyval) (s : obj) :
  dict_get (model_env (fst s)) KEY_MODEL_ENV = PyStr MODEL_ENV_OPENAI ->
  get_llm callbacks s
  = (Ok (ChatOpenAI "gpt-4-turbo" (environ (snd s) !! "OPANAI_API_KEY") callbacks),
     (fst s,
      record_call
        (EvLLM (ChatOpenAI "gpt-4-turbo" (environ (snd s) !! "OPANAI_API_KEY")
                           callbacks))
        (snd s))).
Proof.
  intros Hkey%eq_str_true. destruct s as [self w]. unfold get_llm.
  unfold mbind, M_bind, get_self; simpl in *. by rewrite Hkey.
Qed.

(** With a key that is neither of the two, [ValueError], and nothing has
    happened. *)
Lemma get_llm_invalid (callbacks : pyval) (s : obj) :
  dict_get (model_env (fst s)) KEY_MODEL_ENV <> PyStr MODEL_ENV_OPENAI ->
  dict_get (model_env (fst s)) KEY_MODEL_ENV <> PyStr MODEL_ENV_AZURE ->
  get_llm callbacks s
  = (Raise (ValueError (String.append "Invalid model environment: "
                                      (str_of_dict (model_env (fst s))))), s).
Proof.
  intros Ho%eq_str_false Ha%eq_str_false. destruct s as [self w].
  unfold get_llm. unfold mbind, M_bind, get_self; simpl in *.
  by rewrite Ho, Ha.
Qed.

(** With the Azure key and the two credentials, an [AzureChatOpenAI]. *)
Lemma get_llm_azure (callbacks : pyval) (s : obj) (endpoint key : string) :
  dict_get (model_env (fst s)) KEY_MODEL_ENV <> PyStr MODEL_ENV_OPENAI ->
  dict_get (model_env (fst s)) KEY_MODEL_ENV = PyStr MODEL_ENV_AZURE ->
  model_env (fst s) !! KEY_AZURE_ENDPOINT = Some (PyStr endpoint) ->
  has_nul endpoint = false ->
  model_env (fst s) !! KEY_API_KEY = Some (PyStr key) ->
  has_nul key = false ->
  get_llm callbacks s
  = (Ok (AzureChatOpenAI (PyStr endpoint) (PyStr key) "test" "1106-Preview"
                         "2024-02-01" callbacks),
     (fst s,
      record_call
        (EvLLM (AzureChatOpenAI (PyStr endpoint) (PyStr key) "test"
                                "1106-Preview" "2024-02-01" callbacks))
        (setenv "AZURE_OPENAI_API_KEY" key
           (setenv "AZURE_OPENAI_ENDPOINT" endpoint (snd s))))).
Proof.
  intros Ho%eq_str_false Ha%eq_str_true He Hne Hk Hnk. destruct s as [self w].
  unfold get_llm.
  unfold mbind, M_bind, get_self; simpl in *. rewrite Ho, Ha.
  unfold of_result, in_world, dict_item, environ_set, dict_get.
  rewrite He. simpl. rewrite Hne. simpl.
  rewrite Hk. simpl. rewrite Hnk. done.
Qed.



(** C10. When the model-environment key selects the OpenAI backend,
    [get_llm] returns: it constructs a [ChatOpenAI] whose API key is what the
    process environment holds under [OPANAI_API_KEY], [None] when the variable
    is absent; whatever [model_env_config] holds under its API-key key plays
    no part, two agents that both select OpenAI obtaining the same client in
    the same environment. *)
Theorem get_llm_openai_key_from_environ (callbacks : pyval) (s : obj) :
  dict_get (model_env (fst s)) KEY_MODEL_ENV = PyStr MODEL_ENV_OPENAI ->
  fst (get_llm callbacks s)
  = Ok (ChatOpenAI "gpt-4-turbo" (environ (snd s) !! "OPANAI_API_KEY") callbacks)
  /\ (environ (snd s) !! "OPANAI_API_KEY" = None ->
      fst (get_llm callbacks s) = Ok (ChatOpenAI "gpt-4-turbo" None callbacks))
  /\ (forall s2 : obj,
        dict_get (model_env (fst s2)) KEY_MODEL_ENV = PyStr MODEL_ENV_OPENAI ->
        environ (snd s2) = environ (snd s) ->
        fst (get_llm callbacks s2) = fst (get_llm callbacks s)).
Proof.
  intros Hsel. rewrite (get_llm_openai callbacks s Hsel). simpl.
  split; [done|]. split.
  - by intros ->.
  - intros s2 Hsel2 Henv. rewrite (get_llm_openai callbacks s2 Hsel2). simpl.
    by rewrite Henv.
Qed.

(** *** The run *)

(** Two results of the same call are the same result. *)
Ltac same_call :=
  repeat match goal with
         | H1 : ?t = _, H2 : ?t = _ |- _ => rewrite H1 in H2; simplify_eq
         end.

(** Membership in an explicit list of calls, case by case. *)
Ltac among_calls H :=
  repeat (apply elem_of_cons in H as [H|H]; [try discriminate H|]);
  try (apply elem_of_nil in H; destruct H).

(** An explicit list of calls holds the call, found by position. *)
Ltac in_calls :=
  solve [repeat first [apply list_elem_of_here | apply list_elem_of_further]].

(** C2. If an external call of [run] raises an error (the workspace
    creation, the repository clone or the crew execution), [run] raises that
    error, and it has written no session log file: it has issued no call that
    opens or writes a file, and [save_history] has not touched [agent_logs]. *)
Theorem run_aborts_without_saving (s : obj) (llm : LLM) (s1 : obj) (e : exn) :
  get_llm PyNone s = (Ok llm, s1) ->
  external_failure s llm e ->
  exists self' w' ev,
    run s = (Raise e, (self', w'))
    /\ trace w' = trace (snd s) ++ ev
    /\ forallb (fun c => negb (is_file_event c)) ev = true
    /\ agent_logs self' = agent_logs (fst s).
Proof.
  intros Hllm Hfail.
  destruct (run_has_outcome s) as (r & self' & w' & ev & Hrun & Ht & _ & Hout).
  exists self', w', ev.
  destruct Hfail; destruct Hout; same_call; done.
Qed.

(** C7. A run issues at most one workspace-create call and at most one clone
    call; when it returns, or gets as far as constructing an agent, a task or
    the crew, the calls it has issued are the construction of the LLM client,
    then one workspace-create call, then one clone call whose branch parameter
    is the configured base commit identifier, then the rest, which holds the
    constructions and no further create or clone call. *)
Theorem run_creates_then_clones (s : obj) :
  exists ev,
    trace (snd (snd (run s))) = trace (snd s) ++ ev
    /\ length (List.filter is_create ev) <= 1
    /\ length (List.filter is_clone ev) <= 1
    /\ (fst (run s) = Ok () \/ (exists c, c ∈ ev /\ is_construction c = true) ->
        exists llm workspace_id rest,
          ev = EvLLM llm :: create_call (fst s)
                 :: clone_call (fst s) workspace_id :: rest
          /\ branch_name_of (clone_call (fst s) workspace_id)
             = Some (of_optional
                       (IssueConfig.base_commit_id (issue_config (fst s))))
          /\ List.filter is_create rest = []
          /\ List.filter is_clone rest = []
          /\ (exists a, EvAgent a ∈ rest)
          /\ (exists t, EvTask t ∈ rest)).
Proof.
  destruct (run_has_outcome s) as (r & self' & w' & ev & Hrun & Ht & _ & Hout).
  exists ev. rewrite Hrun. simpl. split; [done|].
  destruct Hout; simpl.
  1-4: split; [lia|]; split; [lia|];
       intros [|(c & Hc & Hcons)]; [done|]; among_calls Hc; by subst.
  all: split; [lia|]; split; [lia|]; intros _;
       eexists _, _, _; (split; [reflexivity|]);
       (split; [reflexivity|]); (split; [reflexivity|]); (split; [reflexivity|]);
       split; eexists; [apply list_elem_of_here|];
       apply list_elem_of_further, list_elem_of_here.
Qed.

(** C9. A run that executes a crew has constructed the reviewer agent and
    the review task, and the crew it executes holds exactly one agent, the
    coder agent, and exactly one task, the coding task: neither the reviewer
    agent nor the review task is in it. A run that returns has executed a
    crew. *)
Theorem reviewer_built_but_not_in_crew (s : obj) :
  exists ev,
    trace (snd (snd (run s))) = trace (snd s) ++ ev
    /\ (fst (run s) = Ok () -> (exists crew, EvKickoff crew ∈ ev))
    /\ (forall crew, EvKickoff crew ∈ ev ->
        exists llm p,
          agents crew = [swe_agent_of (fst s) llm p]
          /\ tasks crew = [coding_task_of (fst s) llm p]
          /\ EvAgent (reviewer_agent_of (fst s) llm) ∈ ev
          /\ EvTask (review_task_of (fst s) llm p) ∈ ev
          /\ EvCrew crew ∈ ev
          /\ (reviewer_agent_of (fst s) llm ∉ agents crew)
          /\ (review_task_of (fst s) llm p ∉ tasks crew)).
Proof.
  destruct (run_has_outcome s) as (r & self' & w' & ev & Hrun & Ht & _ & Hout).
  exists ev. rewrite Hrun. simpl. split; [done|].
  destruct Hout; unfold calls_until_kickoff; simpl.
  1-4: split; [done|]; intros crew Hc; among_calls Hc.
  all: split; [intros _; eexists; in_calls|].
  all: intros crew Hc; among_calls Hc; simplify_eq.
  all: match goal with
       | H : get_llm _ _ = (Ok ?l, _), H' : prompts _ _ = Ok ?q |- _ =>
           exists l, q
       end; simpl.
  all: split; [done|]; split; [done|].
  all: split; [in_calls|]; split; [in_calls|]; split; [in_calls|].
  all: split; intros Hin; apply list_elem_of_singleton in Hin; discriminate Hin.
Qed.

(** C8. A run that returns, of an agent as constructed, has saved the
    history exactly once: it has issued one call that opens a file, for
    writing and in UTF-8, and one call that writes to it, after all its other
    calls; the file is named from the time of the construction of the agent,
    whatever the clock shows during the run; what is written is the
    serialization of the dictionary that maps the issue identifier to the
    log, and the log is the records of the steps of the crew, in order. *)
Theorem run_saves_history_once (args : CoderAgentArgs.t) (w0 w1 w : world)
    (self : CoderAgent) (s' : obj) :
  __init__ args w0 = (Ok self, w1) ->
  run (self, w) = (Ok (), s') ->
  exists id data calls crew,
    IssueConfig.issue_id (CoderAgentArgs.issue_config args) = Some id
    /\ trace (snd s')
       = trace w ++ calls
           ++ [EvOpen (task_output_logs self) "w" "utf-8";
               EvWrite (task_output_logs self) data]
    /\ task_output_logs self
       = path_join (CoderAgentArgs.agent_logs_dir args)
           (String.append AGENT_LOGS_JSON_PATH
              (strftime (now w0) "%m_%d_%Y_%H_%M_%S"))
    /\ forallb (fun c => negb (is_file_event c)) calls = true
    /\ EvKickoff crew ∈ calls
    /\ current_logs (fst s') = crew_entries crew
    /\ json_dumps (PyDict [(PyStr id, PyList (current_logs (fst s')))])
       = Ok data.
Proof.
  intros Hinit Hrun.
  apply init_returns in Hinit
    as ((id & Hid & _) & Hcfg & _ & Hkeys & Hlogs & Hpath).
  destruct (run_has_outcome (self, w))
    as (r & self' & w' & ev & Hrun' & Ht & _ & Hout).
  rewrite Hrun in Hrun'. injection Hrun' as <- ->.
  inversion Hout as [| | | | | | |llm s1 resp resp' p data Hllm Hc Hcl Hp Hcrew Hopen Hdumps];
    subst; simpl in *.
  exists id, data, (calls_until_kickoff self llm (workspace_id resp) p),
    (crew_of self llm p).
  rewrite <- Hcfg. split; [done|]. split; [done|]. split; [done|].
  split; [done|]. split; [set_solver|].
  unfold saved_agent in Hdumps |- *. simpl.
  rewrite Hlogs. split; [done|].
  revert Hdumps. unfold agent_logs_dict. simpl.
  rewrite Hkeys, Hlogs, Hid. simpl. done.
Qed.
End CoderAgentFacts.

(** ** The entry point *)

Section EntryPoint.
Import Swe.
Local Close Scope string_scope.
Local Close Scope Z_scope.

(** C1 is not what the code does: one invocation of the step callback, on a
    step output that is the empty list, leaves the log of the agent of the
    entry point without an entry. *)
Lemma empty_step_output_not_logged :
  length (current_logs
            (fst (call_all (L := Main.pylib) [PyList []]
                           (Main.c_agent, Main.world1)))) <> 1.
Proof. vm_compute. lia. Qed.


Lemma current_logs_after_callbacks_witness :
  current_logs
    (fst (call_all (L := Main.pylib) (snd <$> Main.steps)
                   (Main.c_agent, Main.world1)))
  = current_logs Main.c_agent ++ omap (log_entry (L := Main.pylib)) (snd <$> Main.steps).
Proof.
  apply (current_logs_after_callbacks (L := Main.pylib) (snd <$> Main.steps)
           (Main.c_agent, Main.world1)).
Defined.

Lemma run_aborts_without_saving_witness :
  exists self' w' ev,
    run (K := Main.constants) (L := Main.pylib) (X := Main.externals_clone_fails)
        (Main.c_agent, Main.world1)
    = (Raise (ExternalError "clone"), (self', w'))
    /\ trace w' = trace Main.world1 ++ ev
    /\ forallb (fun c => negb (is_file_event c)) ev = true
    /\ agent_logs self' = agent_logs Main.c_agent.
Proof.
  eapply (run_aborts_without_saving (K := Main.constants) (L := Main.pylib)
            (X := Main.externals_clone_fails) (Main.c_agent, Main.world1)).
  - vm_compute. reflexivity.
  - eapply (clone_raises (X := Main.externals_clone_fails)); vm_compute; reflexivity.
Defined.

Lemma init_requires_issue_id_witness :
  __init__ (L := Main.pylib) (X := Main.externals) Main.args_without_issue
           Main.world0
  = (Raise (ValueError "no git-issue configuration is found"), Main.world0).
Proof.
  apply (init_requires_issue_id (L := Main.pylib) (X := Main.externals)
           Main.args_without_issue Main.world0).
  left. reflexivity.
Defined.

Lemma get_llm_openai_key_from_environ_witness :
  fst (get_llm (K := Main.constants) (L := Main.pylib) PyNone (Main.c_agent, Main.world1))
  = Ok (ChatOpenAI "gpt-4-turbo" None PyNone).
Proof.
  refine (proj1 (proj2 (get_llm_openai_key_from_environ
                          (K := Main.constants) (L := Main.pylib) PyNone
                          (Main.c_agent, Main.world1) _)) _).
  - vm_compute. reflexivity.
  - vm_compute. reflexivity.
Defined.


Lemma run_saves_history_once_witness :
  exists id data calls crew,
    IssueConfig.issue_id (CoderAgentArgs.issue_config Main.args) = Some id
    /\ trace (snd (snd (run (K := Main.constants) (L := Main.pylib)
                            (X := Main.externals) (Main.c_agent, Main.world2))))
       = trace Main.world2 ++ calls
           ++ [EvOpen (task_output_logs Main.c_agent) "w" "utf-8";
               EvWrite (task_output_logs Main.c_agent) data]
    /\ task_output_logs Main.c_agent
       = path_join (PyLib := Main.pylib)
           (CoderAgentArgs.agent_logs_dir Main.args)
           (String.append AGENT_LOGS_JSON_PATH
              (strftime (PyLib := Main.pylib) (now Main.world0)
                        "%m_%d_%Y_%H_%M_%S"))
    /\ forallb (fun c => negb (is_file_event c)) calls = true
    /\ EvKickoff crew ∈ calls
    /\ current_logs
         (fst (snd (run (K := Main.constants) (L := Main.pylib)
                        (X := Main.externals) (Main.c_agent, Main.world2))))
       = crew_entries (L := Main.pylib) (X := Main.externals) crew
    /\ json_dumps (PyLib := Main.pylib)
         (PyDict [(PyStr id,
                   PyList (current_logs
                     (fst (snd (run (K := Main.constants) (L := Main.pylib)
                                    (X := Main.externals)
                                    (Main.c_agent, Main.world2))))))])
       = Ok data.
Proof.
  apply (run_saves_history_once (K := Main.constants) (L := Main.pylib)
           (X := Main.externals) Main.args Main.world0 Main.world1 Main.world2
           Main.c_agent).
  - vm_compute. reflexivity.
  - vm_compute. reflexivity.
Defined.

Lemma run_creates_then_clones_witness :
  exists llm workspace_id rest,
    trace (snd (snd (run (K := Main.constants) (L := Main.pylib)
                         (X := Main.externals) (Main.c_agent, Main.world2))))
    = trace Main.world2
        ++ EvLLM llm :: create_call Main.c_agent
             :: clone_call Main.c_agent workspace_id :: rest
    /\ branch_name_of (clone_call Main.c_agent workspace_id)
       = Some (PyStr "shubhra/linter")
    /\ List.filter is_create rest = []
    /\ List.filter is_clone rest = [].
Proof.
  destruct (run_creates_then_clones (K := Main.constants) (L := Main.pylib)
              (X := Main.externals) (Main.c_agent, Main.world2))
    as (ev & Ht & _ & _ & Hev).
  destruct Hev as (llm & workspace_id & rest & -> & Hb & Hcr & Hcl & _).
  - left. vm_compute. reflexivity.
  - exists llm, workspace_id, rest. split; [exact Ht|]. split; [exact Hb|].
    split; [exact Hcr|exact Hcl].
Defined.

Lemma reviewer_built_but_not_in_crew_witness :
  exists crew llm p,
    EvKickoff crew
      ∈ trace (snd (snd (run (K := Main.constants) (L := Main.pylib)
                             (X := Main.externals) (Main.c_agent, Main.world2))))
    /\ agents crew = [swe_agent_of Main.c_agent llm p]
    /\ tasks crew = [coding_task_of Main.c_agent llm p]
    /\ EvAgent (reviewer_agent_of Main.c_agent llm)
         ∈ trace (snd (snd (run (K := Main.constants) (L := Main.pylib)
                                (X := Main.externals)
                                (Main.c_agent, Main.world2))))
    /\ (reviewer_agent_of Main.c_agent llm ∉ agents crew)
    /\ (review_task_of Main.c_agent llm p ∉ tasks crew).
Proof.
  destruct (reviewer_built_but_not_in_crew (K := Main.constants)
              (L := Main.pylib) (X := Main.externals)
              (Main.c_agent, Main.world2))
    as (ev & Ht & Hret & Hcrew).
  destruct Hret as [crew Hk]; [vm_compute; reflexivity|].
  destruct (Hcrew crew Hk) as (llm & p & Ha & Htk & Hr & _ & _ & Hn1 & Hn2).
  exists crew, llm, p. rewrite Ht.
  split; [apply elem_of_app; by right|]. split; [exact Ha|].
  split; [exact Htk|]. split; [apply elem_of_app; by right|].
  split; [exact Hn1|exact Hn2].
Defined.
End EntryPoint.

(** * Further properties *)

(** ** The edit command *)

Section EditCommandFacts.
Import EditCmd.

Lemma all_chars_app (P : ascii -> bool) (s t : string) :
  all_chars P (s +:+ t) = all_chars P s && all_chars P t.
Proof.
  induction s as [|a s IH]; [done|].
  rewrite app_cons. simpl. by rewrite IH, andb_assoc.
Qed.

Lemma numeral_no_line_feed (z : Z) :
  all_chars (fun a => negb (Ascii.eqb a "010"%char)) (pretty z) = true.
Proof.
  eapply all_chars_impl; [|apply pretty_Z_numeral].
  intros a. unfold numeral_char.
  destruct (Ascii.eqb_spec a "010"%char) as [->|]; [done|done].
Qed.

(** X1. Two different requests never give the same command: the command
    determines the two line numbers and the replacement text. *)
Theorem full_command_distinct (r1 r2 : EditFileRequest) :
  r1 <> r2 -> full_command r1 <> full_command r2.
Proof. intros Hne Heq. by apply Hne, full_command_inj. Qed.

(** X2. The first line of the command is the header with the two line
    numbers and the opening marker, whatever the replacement text is: the
    text starts on the second line and cannot reach into the header. *)
Theorem full_command_first_line (request_data : EditFileRequest) :
  cut_at "010"%char (full_command request_data)
  = Some ("edit " +:+ pretty (start_line request_data) +:+ ":"
            +:+ pretty (end_line request_data) +:+ " << " +:+ end_of_edit,
          replacement_text request_data +:+ LF +:+ end_of_edit).
Proof.
  unfold full_command.
  replace ("edit " +:+ pretty (start_line request_data) +:+ ":"
             +:+ pretty (end_line request_data) +:+ " << " +:+ end_of_edit
             +:+ LF +:+ replacement_text request_data +:+ LF +:+ end_of_edit)
    with (("edit " +:+ pretty (start_line request_data) +:+ ":"
             +:+ pretty (end_line request_data) +:+ " << " +:+ end_of_edit)
            +:+ String "010"%char
                  (replacement_text request_data +:+ LF +:+ end_of_edit))
    by (by rewrite !app_assoc_str).
  apply cut_at_app.
  rewrite !all_chars_app, !numeral_no_line_feed. reflexivity.
Qed.
End EditCommandFacts.

(** ** The step callback, further *)

Section StepCallbackFacts.
Import Swe.
Context {K : Constants} {L : PyLib} {X : Externals}.
Local Close Scope string_scope.
Local Close Scope Z_scope.

Lemma record_no_log (w : world) : foldl (fun w r => record_log r w) w [] = w.
Proof. reflexivity. Qed.

(** All that one call of the step callback does. *)
Lemma add_in_logs_effect (step_output : pyval) (s : obj) :
  add_in_logs step_output s
  = (outcome (callback_error step_output),
     (with_logs (fst s) (agent_logs (fst s))
        (current_logs (fst s) ++ option_list (log_entry step_output)),
      foldl (fun w r => record_log r w) (snd s) (log_lines step_output))).
Proof.
  destruct s as [self w].
  unfold add_in_logs, log_entry, callback_error, log_lines, tool_output.
  destruct step_output as [| | |[|a l]| | | |]; simpl;
    rewrite ?app_nil_r, ?with_logs_same; try reflexivity.
  unfold mbind, M_bind, of_result; simpl.
  destruct (subscript a 0) as [[]|]; simpl;
    rewrite ?app_nil_r, ?with_logs_same; try reflexivity.
  destruct (py_len a) as [n|]; simpl;
    rewrite ?app_nil_r, ?with_logs_same; try reflexivity.
  destruct (1 <? n)%nat; simpl;
    rewrite ?app_nil_r, ?with_logs_same; try reflexivity.
  destruct (subscript a 1); simpl;
    rewrite ?app_nil_r, ?with_logs_same; reflexivity.
Qed.

Lemma callback_error_silent (step_output : pyval) (e : exn) :
  callback_error step_output = Some e ->
  log_entry step_output = None /\ log_lines step_output = [].
Proof.
  unfold callback_error, log_entry, log_lines.
  repeat case_match; simplify_eq; done.
Qed.

(** X3. A call of the step callback that raises has changed nothing: not the
    log, not the other attributes of the agent, not the lines sent to the
    logger. *)
Theorem add_in_logs_raise_changes_nothing (step_output : pyval) (s : obj)
    (e : exn) :
  fst (add_in_logs step_output s) = Raise e ->
  snd (add_in_logs step_output s) = s.
Proof.
  rewrite add_in_logs_effect. simpl. intros Hraise.
  destruct (callback_error step_output) as [e'|] eqn:Herr; [|done].
  apply callback_error_silent in Herr as [-> ->]. simpl.
  rewrite app_nil_r, with_logs_same. by destruct s.
Qed.

Lemma call_all_cons (o : pyval) (rest : list pyval) (s : obj) :
  call_all (o :: rest) s = call_all rest (snd (add_in_logs o s)).
Proof. reflexivity. Qed.

(** X4. Whatever step outputs the callback is invoked on, it only appends to
    the log: the entries that were there stay, in place, at its head; the
    keys of [agent_logs] and the path of the log file do not change; no call
    is issued and the environment is not touched. *)
Theorem callbacks_only_append (step_outputs : list pyval) (s : obj) :
  current_logs (fst s) `prefix_of` current_logs (fst (call_all step_outputs s))
  /\ agent_logs (fst (call_all step_outputs s)) = agent_logs (fst s)
  /\ task_output_logs (fst (call_all step_outputs s)) = task_output_logs (fst s)
  /\ trace (snd (call_all step_outputs s)) = trace (snd s)
  /\ environ (snd (call_all step_outputs s)) = environ (snd s).
Proof.
  split.
  { rewrite call_all_logs. by apply prefix_app_r. }
  revert s. induction step_outputs as [|o rest IH]; intros s; [done|].
  rewrite call_all_cons.
  destruct (IH (snd (add_in_logs o s))) as (Hk & Hp & Ht & He).
  destruct (add_in_logs_run o s) as (w' & Hrun & Ht' & He' & _).
  rewrite Hk, Hp, Ht, He, Hrun. simpl. by rewrite Ht', He'.
Qed.

(** X5. A step output on which the callback returns without recording
    anything is reported: the logger receives exactly one more line, which
    names a type. *)
Theorem unrecorded_step_is_reported (step_output : pyval) (s : obj) :
  fst (add_in_logs step_output s) = Ok () ->
  log_entry step_output = None ->
  exists line,
    logged (snd (snd (add_in_logs step_output s))) = logged (snd s) ++ [line]
    /\ (line = LogTypeIsNotList (type_of step_output)
        \/ exists t, line = LogTypeOfStepOutput t).
Proof.
  rewrite add_in_logs_effect. simpl.
  unfold callback_error, log_entry, log_lines, tool_output.
  intros Hok Hnone.
  repeat case_match; simplify_eq/=; eauto.
Qed.

(** X6. Of a list step output only the first element is recorded, and of
    that element only its first two components: a pair (or longer tuple) that
    starts with an [AgentAction] gives one entry whose tool output is the
    second component; a tuple with the action alone gives one entry whose
    tool output is [None]. No line is sent to the logger. *)
Theorem first_pair_is_recorded (tool : string) (tool_input : pyval)
    (log : string) (out : pyval) (more rest : list pyval) (s : obj) :
  add_in_logs
    (PyList (PyTuple (PyAgentAction tool tool_input log :: out :: more) :: rest)) s
  = (Ok (),
     (with_logs (fst s) (agent_logs (fst s))
        (current_logs (fst s)
           ++ [PyDict [(PyStr "agent_action",
                        PyStr (AgentAction_json tool tool_input log));
                       (PyStr "tool_output", out)]]),
      snd s))
  /\ add_in_logs (PyList (PyTuple [PyAgentAction tool tool_input log] :: rest)) s
     = (Ok (),
        (with_logs (fst s) (agent_logs (fst s))
           (current_logs (fst s)
              ++ [PyDict [(PyStr "agent_action",
                           PyStr (AgentAction_json tool tool_input log));
                          (PyStr "tool_output", PyNone)]]),
         snd s)).
Proof. by rewrite !add_in_logs_effect. Qed.

(** X7. On the step outputs the agent framework produces, a final answer or
    a list of non-empty tuples, the callback never raises. *)
Theorem well_shaped_returns (step_output : pyval) (s : obj) :
  well_shaped step_output = true ->
  fst (add_in_logs step_output s) = Ok ().
Proof.
  rewrite add_in_logs_effect. simpl.
  unfold well_shaped, callback_error, tool_output.
  destruct step_output as [| | |[|a l]| | | |]; try done.
  simpl. intros [Ha _]%andb_prop.
  destruct a as [| | |[|x [|y l']]|[|x [|y l']]| | |]; try done; simpl.
  all: by destruct x.
Qed.
End StepCallbackFacts.

(** ** Selecting the LLM, further *)

Section LlmFacts.
Import Swe.
Context {K : Constants} {L : PyLib} {X : Externals}.
Local Close Scope string_scope.
Local Close Scope Z_scope.

(** X8. When the Azure backend is selected with its two credentials, after
    [get_llm] the process environment holds the endpoint under
    [AZURE_OPENAI_ENDPOINT] and the API key under [AZURE_OPENAI_API_KEY], and
    every other variable is as it was. *)
Theorem get_llm_azure_sets_environ (callbacks : pyval) (s : obj)
    (endpoint key : string) :
  dict_get (model_env (fst s)) KEY_MODEL_ENV <> PyStr MODEL_ENV_OPENAI ->
  dict_get (model_env (fst s)) KEY_MODEL_ENV = PyStr MODEL_ENV_AZURE ->
  model_env (fst s) !! KEY_AZURE_ENDPOINT = Some (PyStr endpoint) ->
  has_nul endpoint = false ->
  model_env (fst s) !! KEY_API_KEY = Some (PyStr key) ->
  has_nul key = false ->
  environ (snd (snd (get_llm callbacks s))) !! "AZURE_OPENAI_ENDPOINT"
  = Some endpoint
  /\ environ (snd (snd (get_llm callbacks s))) !! "AZURE_OPENAI_API_KEY"
     = Some key
  /\ (forall k : string,
        k <> "AZURE_OPENAI_ENDPOINT" -> k <> "AZURE_OPENAI_API_KEY" ->
        environ (snd (snd (get_llm callbacks s))) !! k = environ (snd s) !! k).
Proof.
  intros Ho Ha He Hne Hk Hnk.
  rewrite (get_llm_azure callbacks s endpoint key Ho Ha He Hne Hk Hnk). simpl.
  split; [|split].
  - rewrite lookup_insert_ne by done. apply lookup_insert_eq.
  - apply lookup_insert_eq.
  - intros k H1 H2. by rewrite !lookup_insert_ne.
Qed.

(** X9. When the Azure backend is selected and the model environment holds
    the endpoint but no API key, [get_llm] raises [KeyError] for the API key
    after it has already stored the endpoint in the process environment: the
    call fails, no client is constructed, and [AZURE_OPENAI_ENDPOINT] stays
    set. *)
Theorem get_llm_azure_key_missing (callbacks : pyval) (s : obj)
    (endpoint : string) :
  dict_get (model_env (fst s)) KEY_MODEL_ENV <> PyStr MODEL_ENV_OPENAI ->
  dict_get (model_env (fst s)) KEY_MODEL_ENV = PyStr MODEL_ENV_AZURE ->
  model_env (fst s) !! KEY_AZURE_ENDPOINT = Some (PyStr endpoint) ->
  has_nul endpoint = false ->
  model_env (fst s) !! KEY_API_KEY = None ->
  get_llm callbacks s
  = (Raise (KeyError KEY_API_KEY),
     (fst s, setenv "AZURE_OPENAI_ENDPOINT" endpoint (snd s))).
Proof.
  intros Ho%eq_str_false Ha%eq_str_true He Hne Hk. destruct s as [self w].
  unfold get_llm.
  unfold mbind, M_bind, get_self; simpl in *. rewrite Ho, Ha.
  unfold of_result, in_world, dict_item, environ_set, dict_get.
  rewrite He. simpl. rewrite Hne. simpl. by rewrite Hk.
Qed.

(** X10. Unless the Azure backend is selected, [get_llm] leaves the process
    environment as it was. *)
Theorem get_llm_keeps_environ (callbacks : pyval) (s : obj) :
  dict_get (model_env (fst s)) KEY_MODEL_ENV = PyStr MODEL_ENV_OPENAI
  \/ dict_get (model_env (fst s)) KEY_MODEL_ENV <> PyStr MODEL_ENV_AZURE ->
  environ (snd (snd (get_llm callbacks s))) = environ (snd s).
Proof.
  intros Hsel.
  destruct (eq_str (dict_get (model_env (fst s)) KEY_MODEL_ENV)
                   MODEL_ENV_OPENAI) eqn:Ho.
  - apply eq_str_true in Ho. by rewrite (get_llm_openai callbacks s Ho).
  - apply eq_str_false in Ho. destruct Hsel as [Ho'|Ha]; [done|].
    by rewrite (get_llm_invalid callbacks s Ho Ha).
Qed.

(** X11. When the Azure backend is selected and the model environment has no
    endpoint, [get_llm] raises [KeyError] for the endpoint; when the endpoint
    it holds is not a string, [get_llm] raises [TypeError]. In both cases
    nothing has changed and no client is constructed. *)
Theorem get_llm_azure_bad_endpoint (callbacks : pyval) (s : obj) :
  dict_get (model_env (fst s)) KEY_MODEL_ENV <> PyStr MODEL_ENV_OPENAI ->
  dict_get (model_env (fst s)) KEY_MODEL_ENV = PyStr MODEL_ENV_AZURE ->
  (model_env (fst s) !! KEY_AZURE_ENDPOINT = None ->
   get_llm callbacks s = (Raise (KeyError KEY_AZURE_ENDPOINT), s))
  /\ (forall v,
        model_env (fst s) !! KEY_AZURE_ENDPOINT = Some v ->
        (forall str, v <> PyStr str) ->
        get_llm callbacks s = (Raise TypeError, s)).
Proof.
  intros Ho%eq_str_false Ha%eq_str_true. destruct s as [self w].
  unfold get_llm.
  unfold mbind, M_bind, get_self; simpl in *. rewrite Ho, Ha.
  unfold of_result, in_world, dict_item, environ_set, dict_get.
  split.
  - by intros ->.
  - intros v -> Hv. simpl. destruct v; try done. by destruct (Hv s).
Qed.
End LlmFacts.

(** ** Saving the history, the construction and the logger, further *)

Section HistoryFacts.
Import Swe.
Context {K : Constants} {L : PyLib} {X : Externals}.
Local Close Scope string_scope.
Local Close Scope Z_scope.

(** The agent [save_history] leaves, whether it returns or raises. *)
Lemma save_history_agent (instance_id : option string) (s : obj) :
  fst (snd (save_history instance_id s))
  = with_logs (fst s)
      (if bool_decide (instance_id ∈ agent_logs (fst s)) then agent_logs (fst s)
       else agent_logs (fst s) ++ [instance_id])
      (current_logs (fst s)).
Proof.
  rewrite save_history_run. simpl.
  destruct (file_open _); [|done]. by destruct (json_dumps _).
Qed.




(** X13. When the log cannot be serialized, [save_history] raises the error
    of [json.dumps] after the file has been opened for writing: the call that
    opens (and so truncates) the file has been issued, and nothing is
    written to it. *)
Theorem save_history_unserializable (instance_id : option string) (s : obj)
    (e : exn) :
  file_open (task_output_logs (fst s)) = Ok () ->
  json_dumps
    (agent_logs_dict
       (with_logs (fst s)
          (if bool_decide (instance_id ∈ agent_logs (fst s))
           then agent_logs (fst s) else agent_logs (fst s) ++ [instance_id])
          (current_logs (fst s)))) = Raise e ->
  fst (save_history instance_id s) = Raise e
  /\ trace (snd (snd (save_history instance_id s)))
     = trace (snd s) ++ [EvOpen (task_output_logs (fst s)) "w" "utf-8"].
Proof.
  intros Hopen Hdumps. rewrite save_history_run. simpl.
  by rewrite Hopen, Hdumps.
Qed.

(** X14. When the file cannot be opened, [save_history] raises the error of
    [open]: it has issued that one call and no write, and it has already
    bound the identifier in [agent_logs]. *)
Theorem save_history_open_fails (instance_id : option string) (s : obj)
    (e : exn) :
  file_open (task_output_logs (fst s)) = Raise e ->
  fst (save_history instance_id s) = Raise e
  /\ trace (snd (snd (save_history instance_id s)))
     = trace (snd s) ++ [EvOpen (task_output_logs (fst s)) "w" "utf-8"]
  /\ instance_id ∈ agent_logs (fst (snd (save_history instance_id s))).
Proof.
  intros Hopen. rewrite save_history_agent. rewrite save_history_run. simpl.
  rewrite Hopen. simpl. split; [done|]. split; [done|].
  case_bool_decide as Hin; [done|].
  apply elem_of_app. right. apply list_elem_of_here.
Qed.

(** X15. The construction issues its calls in a fixed order and stops at
    the first one that raises, raising its error: the calls issued are an
    initial part of the toolset construction, the tool lookup, a Composio
    client and the lookup of the entity [swe-agent], a second Composio client
    and the lookup of the entity [SWE-Agent-Client]; with an issue identifier,
    they are these calls up to and including the first that raises, the
    construction raises the error of that call, and it returns when none
    raises. It touches neither the environment nor the logger. When it
    returns, all six calls have been issued, and the agent holds what the
    three lookups answered. *)
Theorem init_calls_in_order (args : CoderAgentArgs.t) (w : world) :
  exists ev,
    trace (snd (__init__ args w)) = trace w ++ ev
    /\ ev `prefix_of` init_calls
    /\ environ (snd (__init__ args w)) = environ w
    /\ logged (snd (__init__ args w)) = logged w
    /\ (forall self,
          fst (__init__ args w) = Ok self ->
          ev = init_calls
          /\ get_tools [LOCALWORKSPACE; CMDMANAGERTOOL; HISTORYKEEPER;
                        SUBMITPATCHTOOL] = Ok (composio_toolset self)
          /\ get_entity "swe-agent" = Ok (entity self)
          /\ get_entity "SWE-Agent-Client" = Ok (composio_entity self))
    /\ (truthy (IssueConfig.issue_id (CoderAgentArgs.issue_config args)) = true ->
        ev = fst (until_first_raise (init_answers w))
        /\ match snd (until_first_raise (init_answers w)) with
           | Some e => fst (__init__ args w) = Raise e
           | None => is_ok (fst (__init__ args w)) = true
           end).
Proof.
  unfold __init__, get_composio_entity, init_calls, init_answers.
  destruct (truthy _); simpl.
  2:{ exists []. rewrite app_nil_r. repeat split; try done. apply prefix_nil. }
  unfold mbind, M_bind, extcall, new_composio_client, datetime_now; simpl.
  destruct toolset_init as [[]|]; simpl.
  2:{ eexists [_]. repeat split; try done. by eexists. }
  destruct (get_tools _) as [ts|]; simpl.
  2:{ eexists [_; _]. rewrite <- !app_assoc. repeat split; try done. by eexists. }
  rewrite <- ?app_assoc. simpl.
  destruct (composio_client _) as [[]|]; simpl.
  2:{ eexists [_; _; _]. rewrite <- !app_assoc. repeat split; try done.
      by eexists. }
  destruct (get_entity "swe-agent") as [e1|]; simpl.
  2:{ eexists [_; _; _; _]. rewrite <- !app_assoc. repeat split; try done.
      by eexists. }
  rewrite <- ?app_assoc. simpl.
  destruct (composio_client _) as [[]|]; simpl.
  2:{ eexists [_; _; _; _; _]. rewrite <- !app_assoc. repeat split; try done.
      by eexists. }
  destruct (get_entity "SWE-Agent-Client") as [e2|] eqn:He2; simpl.
  2:{ eexists [_; _; _; _; _; _]. rewrite <- !app_assoc.
      repeat split; try done. }
  eexists [_; _; _; _; _; _]. rewrite <- !app_assoc.
  split; [done|]. split; [done|]. split; [done|]. split; [done|].
  split; [|done].
  intros self [= <-]. simpl. done.
Qed.

(** X16. The path of the log file depends on the logs directory and on the
    clock at construction only: two agents constructed in the same second
    with the same logs directory write to the same file, whatever their
    issues are. *)
Theorem log_path_collision (args1 args2 : CoderAgentArgs.t) (w1 w2 : world)
    (self1 self2 : CoderAgent) (w1' w2' : world) :
  __init__ args1 w1 = (Ok self1, w1') ->
  __init__ args2 w2 = (Ok self2, w2') ->
  CoderAgentArgs.agent_logs_dir args1 = CoderAgentArgs.agent_logs_dir args2 ->
  now w1 = now w2 ->
  task_output_logs self1 = task_output_logs self2.
Proof.
  intros (_ & _ & _ & _ & _ & ->)%init_returns
         (_ & _ & _ & _ & _ & ->)%init_returns Hdir Hnow.
  by rewrite Hdir, Hnow.
Qed.
End HistoryFacts.

(** ** The run, further *)

Section RunFacts.
Import Swe.
Context {K : Constants} {L : PyLib} {X : Externals}.
Local Close Scope string_scope.
Local Close Scope Z_scope.

(** Two answers to the same question are the same answer. *)
Ltac same_answer :=
  repeat match goal with
         | H1 : ?t = _, H2 : ?t = _ |- _ => rewrite H1 in H2; simplify_eq
         end.

(** Membership in an explicit list of calls, case by case. *)
Ltac each_call H :=
  repeat (apply elem_of_cons in H as [H|H]; [try discriminate H|]);
  try (apply elem_of_nil in H; destruct H).

(** X17. Every action a run executes, it executes on the entity looked up as
    [swe-agent] at construction ([self.entity]); and the clone call is issued
    in the workspace that the create call has returned, for the repository and
    the base commit of the issue configuration. *)
Theorem run_calls_on_entity (s : obj) :
  exists ev,
    trace (snd (snd (run s))) = trace (snd s) ++ ev
    /\ (forall ent action params,
          EvExecute ent action params ∈ ev -> ent = entity (fst s))
    /\ (forall ent params,
          EvExecute ent CMDMANAGERTOOL_GITHUBCLONECMD params ∈ ev ->
          exists resp,
            entity_execute (entity (fst s))
              LOCALWORKSPACE_CREATEWORKSPACEACTION [] = Ok resp
            /\ params
               = [("workspace_id"%string, workspace_id resp);
                  ("repo_name"%string,
                   of_optional (IssueConfig.repo_name (issue_config (fst s))));
                  ("branch_name"%string,
                   of_optional
                     (IssueConfig.base_commit_id (issue_config (fst s))))]).
Proof.
  destruct (run_has_outcome s) as (r & self' & w' & ev & Hrun & Ht & _ & Hout).
  exists ev. rewrite Hrun. simpl. split; [done|].
  destruct Hout; unfold calls_until_kickoff, create_call, clone_call; simpl;
    (split; [intros ent action params Hin; each_call Hin; by simplify_eq|]);
    intros ent params Hin; each_call Hin; simplify_eq; eauto.
Qed.

(** X18. A run of an agent without a repository name issues the create call
    and the clone call all the same, and only then raises [AttributeError],
    while it formats its prompts: no agent, task or crew has been
    constructed and nothing is saved. *)
Theorem run_without_repo_name (s : obj) (llm : LLM) (s1 : obj)
    (resp resp' : ActionResponse) :
  get_llm PyNone s = (Ok llm, s1) ->
  entity_execute (entity (fst s)) LOCALWORKSPACE_CREATEWORKSPACEACTION []
    = Ok resp ->
  entity_execute (entity (fst s)) CMDMANAGERTOOL_GITHUBCLONECMD
    (clone_params (fst s) (workspace_id resp)) = Ok resp' ->
  repo_name (fst s) = None ->
  exists w',
    run s = (Raise AttributeError, (fst s, w'))
    /\ trace w'
       = trace (snd s)
           ++ [EvLLM llm; create_call (fst s);
               clone_call (fst s) (workspace_id resp)].
Proof.
  intros Hllm Hcreate Hclone Hrepo.
  assert (prompts (fst s) (workspace_id resp) = Raise AttributeError) as Hp.
  { unfold prompts, repo_name_dir. by rewrite Hrepo. }
  destruct (run_has_outcome s) as (r & self' & w' & ev & Hrun & Ht & _ & Hout).
  exists w'. destruct Hout; same_answer. by rewrite Hrun, Ht.
Qed.

(** X19. When the crew execution raises, the entries that the step callback
    has recorded before the error are in [current_logs] after the run: they
    are kept in memory, though no file holds them. *)
Theorem run_crew_failure_keeps_entries (s : obj) (llm : LLM) (s1 : obj)
    (resp resp' : ActionResponse) (p : string * string) (e : exn) :
  get_llm PyNone s = (Ok llm, s1) ->
  entity_execute (entity (fst s)) LOCALWORKSPACE_CREATEWORKSPACEACTION []
    = Ok resp ->
  entity_execute (entity (fst s)) CMDMANAGERTOOL_GITHUBCLONECMD
    (clone_params (fst s) (workspace_id resp)) = Ok resp' ->
  prompts (fst s) (workspace_id resp) = Ok p ->
  crew_error (crew_of (fst s) llm p) = Some e ->
  fst (run s) = Raise e
  /\ current_logs (fst (snd (run s)))
     = current_logs (fst s) ++ crew_entries (crew_of (fst s) llm p).
Proof.
  intros Hllm Hcreate Hclone Hp Hcrew.
  destruct (run_has_outcome s) as (r & self' & w' & ev & Hrun & Ht & _ & Hout).
  rewrite Hrun. simpl. destruct Hout; same_answer. done.
Qed.

End RunFacts.

Section RepeatedRun.
Import Swe.
Context {K : Constants} {L : PyLib}.
Local Close Scope string_scope.
Local Close Scope Z_scope.

(** X20. A second run of the same agent does not start a new log. The
    collaborators of the two runs may answer differently. The log after the
    first run is the log of before followed by the entries of the crew that
    the first run has executed; the log after the second run is that log
    followed by the entries of the crew that the second run has executed; the
    dictionary keeps its keys, and the second run writes it, every key bound
    to that whole log, to the same file as the first run. *)
Theorem run_twice (X1 X2 : Externals) (s s1 : obj) (w : world) (s2 : obj) :
  run (X := X1) s = (Ok (), s1) ->
  run (X := X2) (fst s1, w) = (Ok (), s2) ->
  exists crew1 crew2 calls1 calls2 data1 data2,
    trace (snd s1)
    = trace (snd s) ++ calls1
        ++ [EvOpen (task_output_logs (fst s)) "w" "utf-8";
            EvWrite (task_output_logs (fst s)) data1]
    /\ EvKickoff crew1 ∈ calls1
    /\ current_logs (fst s1)
       = current_logs (fst s) ++ crew_entries (X := X1) crew1
    /\ trace (snd s2)
       = trace w ++ calls2
           ++ [EvOpen (task_output_logs (fst s)) "w" "utf-8";
               EvWrite (task_output_logs (fst s)) data2]
    /\ EvKickoff crew2 ∈ calls2
    /\ current_logs (fst s2)
       = current_logs (fst s1) ++ crew_entries (X := X2) crew2
    /\ agent_logs (fst s2) = agent_logs (fst s1)
    /\ json_dumps (agent_logs_dict (fst s2)) = Ok data2
    /\ agent_logs_dict (fst s2)
       = PyDict (map (fun k =>
                        (of_optional k,
                         PyList (current_logs (fst s1)
                                   ++ crew_entries (X := X2) crew2)))
                     (agent_logs (fst s1))).
Proof.
  intros Hrun1 Hrun2.
  destruct (run_has_outcome (X := X1) s)
    as (r & a1 & w1 & ev1 & Hr1 & Ht1 & _ & Hout1).
  rewrite Hrun1 in Hr1. injection Hr1 as <- ->.
  destruct (run_has_outcome (X := X2) (fst (a1, w1), w))
    as (r & a2 & w2 & ev2 & Hr2 & Ht2 & _ & Hout2).
  rewrite Hrun2 in Hr2. injection Hr2 as <- ->.
  inversion Hout1 as [| | | | | | |llm1 t1 resp1 resp1' p1 data1 _ _ _ _ _ _ _];
    subst.
  inversion Hout2 as [| | | | | | |llm2 t2 resp2 resp2' p2 data2 _ _ _ _ _ _ Hd];
    subst.
  simpl in *.
  set (a1 := saved_agent (X := X1) (fst s) (crew_of (fst s) llm1 p1)) in *.
  assert (agent_logs (saved_agent (X := X2) a1 (crew_of a1 llm2 p2))
          = agent_logs a1) as Hk.
  { unfold saved_agent at 1. simpl.
    rewrite bool_decide_true; [done|]. unfold a1, saved_agent. simpl.
    case_bool_decide; [done|]. apply elem_of_app. right. apply list_elem_of_here. }
  exists (crew_of (fst s) llm1 p1), (crew_of a1 llm2 p2),
    (calls_until_kickoff (fst s) llm1 (workspace_id resp1) p1),
    (calls_until_kickoff a1 llm2 (workspace_id resp2) p2), data1, data2.
  split; [exact Ht1|]. split.
  { unfold calls_until_kickoff. rewrite !elem_of_cons. tauto. }
  split; [done|]. split; [exact Ht2|]. split.
  { unfold calls_until_kickoff. rewrite !elem_of_cons. tauto. }
  split; [done|]. split; [exact Hk|]. split; [exact Hd|].
  unfold agent_logs_dict. by rewrite Hk.
Qed.
End RepeatedRun.

(** ** The repository directory and the logger *)

Section DirectoryFacts.
Import Swe.
Context {L : PyLib}.

Lemma split_last_go_no_slash (acc s : string) :
  all_chars (fun a => negb (Ascii.eqb a "/"%char)) s = true ->
  split_last_go acc s = String.rev_app acc s.
Proof.
  revert acc. induction s as [|c s IH]; intros acc Hs; [done|].
  simpl in Hs. apply andb_prop in Hs as [Hc Hs]. simpl.
  apply negb_true_iff in Hc. rewrite Hc. by rewrite IH.
Qed.

Lemma split_last_go_after_slash (acc org name : string) :
  split_last_go acc (org +:+ String "/"%char name) = split_last_go "" name.
Proof.
  revert acc. induction org as [|c org IH]; intros acc.
  - rewrite app_nil_l. simpl. done.
  - rewrite app_cons. simpl. destruct (Ascii.eqb c "/"%char); apply IH.
Qed.

(** X21. The directory of the repository is a slash followed by the last
    component of the repository name, stripped: for a name [org/name] where
    [name] holds no slash it is [/name], whatever [org] is (other slashes
    included), and for a name without a slash it is the whole name. *)
Theorem repo_name_dir_last_component (org name : string) :
  all_chars (fun a => negb (Ascii.eqb a "/"%char)) name = true ->
  repo_name_dir (Some (org +:+ String "/"%char name))
  = Ok ("/" +:+ str_strip name)
  /\ repo_name_dir (Some name) = Ok ("/" +:+ str_strip name).
Proof.
  intros Hname. unfold repo_name_dir, split_last.
  rewrite split_last_go_after_slash.
  by rewrite (split_last_go_no_slash "" name Hname).
Qed.
End DirectoryFacts.

Section LoggerFacts.
Import Swe.
Local Close Scope string_scope.
Local Close Scope Z_scope.

Lemma replicate_snoc {A} (n : nat) (x : A) :
  replicate n x ++ [x] = x :: replicate n x.
Proof. induction n as [|n IH]; [done|]. simpl. by rewrite IH. Qed.

(** The logger after [n] calls of [setup_logger] on a registry that did not
    have it. *)
Lemma setup_logger_iter (n : nat) (loggers : gmap string Logger) :
  loggers !! "local_workspace" = None ->
  Nat.iter (S n) setup_logger loggers !! "local_workspace"
  = Some {| logger_level := DEBUG;
            handlers := replicate (S n) the_handler;
            propagate := false |}.
Proof.
  intros Hfresh. induction n as [|n IH].
  - simpl. unfold setup_logger, getLogger. rewrite Hfresh. simpl.
    apply lookup_insert_eq.
  - change (Nat.iter (S (S n)) setup_logger loggers)
      with (setup_logger (Nat.iter (S n) setup_logger loggers)).
    unfold setup_logger at 1, getLogger. rewrite IH.
    rewrite lookup_insert_eq. cbn [default]. unfold id. cbn [handlers].
    fold the_handler. by rewrite replicate_snoc.
Qed.

Lemma handlers_let_through (lvl : LogLevel) (m : nat) :
  lvl <> NOTSET ->
  length (List.filter
            (fun h => (level_value (handler_level h) <=? level_value lvl)%nat)
            (replicate m the_handler)) = m.
Proof.
  intros Hlvl.
  assert ((level_value DEBUG <=? level_value lvl)%nat = true) as Hle
    by (by destruct lvl).
  induction m as [|m IH]; [done|].
  change (replicate (S m) the_handler)
    with (the_handler :: replicate m the_handler).
  cbn [List.filter]. change (handler_level the_handler) with DEBUG.
  rewrite Hle. cbn [length]. by rewrite IH.
Qed.

(** X22. Each call of [setup_logger] adds one more handler to the logger
    [local_workspace] and touches no other logger: after [n] calls on a
    registry that did not have that logger, it has [n] handlers, and a record
    of any level from [DEBUG] up sent to it is emitted [n] times by them; from
    the first call on its level is [DEBUG] and it does not propagate. *)
Theorem setup_logger_repeated (n : nat) (loggers : gmap string Logger) :
  loggers !! "local_workspace" = None ->
  handlers (getLogger "local_workspace" (Nat.iter n setup_logger loggers))
  = replicate n the_handler
  /\ (forall lvl, lvl <> NOTSET ->
        emissions lvl
          (getLogger "local_workspace" (Nat.iter n setup_logger loggers)) = n)
  /\ ((0 < n)%nat ->
      logger_level
        (getLogger "local_workspace" (Nat.iter n setup_logger loggers)) = DEBUG
      /\ propagate
           (getLogger "local_workspace" (Nat.iter n setup_logger loggers))
         = false)
  /\ (forall name, name <> "local_workspace" ->
        Nat.iter n setup_logger loggers !! name = loggers !! name).
Proof.
  intros Hfresh. split; [|split; [|split]].
  - destruct n as [|n]; unfold getLogger.
    + simpl. by rewrite Hfresh.
    + by rewrite setup_logger_iter.
  - intros lvl Hlvl. destruct n as [|n]; unfold getLogger.
    + simpl. rewrite Hfresh. unfold emissions. simpl. by case_match.
    + rewrite setup_logger_iter by done. cbn [default]. unfold id.
      unfold emissions. cbn [logger_level handlers].
      rewrite handlers_let_through by done.
      by destruct lvl.
  - intros Hn. destruct n as [|n]; [lia|].
    unfold getLogger. by rewrite setup_logger_iter.
  - intros name Hname. induction n as [|n IH]; [done|].
    simpl. unfold setup_logger at 1. by rewrite lookup_insert_ne.
Qed.
End LoggerFacts.

(** ** The entry point, further *)

Section EntryPointFurther.
Import Swe.
Local Close Scope string_scope.
Local Close Scope Z_scope.

Lemma full_command_distinct_witness :
  EditCmd.full_command
    {| EditCmd.start_line := 3; EditCmd.end_line := 4;
       EditCmd.replacement_text := "print(x)" |}
  <> EditCmd.full_command
       {| EditCmd.start_line := 3; EditCmd.end_line := 4;
          EditCmd.replacement_text := "    print(x)" |}.
Proof. apply full_command_distinct. discriminate. Defined.

Lemma add_in_logs_raise_changes_nothing_witness :
  snd (add_in_logs (L := Main.pylib)
         (PyList [PyAgentAction "edit" (PyStr "1:2") ""])
         (Main.c_agent, Main.world1))
  = (Main.c_agent, Main.world1).
Proof.
  apply (add_in_logs_raise_changes_nothing (L := Main.pylib)
           (PyList [PyAgentAction "edit" (PyStr "1:2") ""])
           (Main.c_agent, Main.world1) TypeError).
  vm_compute. reflexivity.
Defined.

Lemma unrecorded_step_is_reported_witness :
  exists line,
    logged (snd (snd (add_in_logs (L := Main.pylib) (PyList [])
                        (Main.c_agent, Main.world1))))
    = logged Main.world1 ++ [line]
    /\ (line = LogTypeIsNotList (type_of (PyList []))
        \/ exists t, line = LogTypeOfStepOutput t).
Proof.
  apply (unrecorded_step_is_reported (L := Main.pylib) (PyList [])
           (Main.c_agent, Main.world1)).
  - vm_compute. reflexivity.
  - vm_compute. reflexivity.
Defined.

Lemma well_shaped_returns_witness :
  fst (add_in_logs (L := Main.pylib)
         (PyList [PyTuple [PyAgentAction "edit" (PyStr "1:2") ""; PyStr "ok"]])
         (Main.c_agent, Main.world1))
  = Ok ().
Proof.
  apply (well_shaped_returns (L := Main.pylib)
           (PyList [PyTuple [PyAgentAction "edit" (PyStr "1:2") ""; PyStr "ok"]])
           (Main.c_agent, Main.world1)).
  vm_compute. reflexivity.
Defined.

Lemma get_llm_azure_sets_environ_witness :
  environ
    (snd (snd (get_llm (K := Main.constants) (L := Main.pylib) PyNone
                 (Main.agent_of (Main.args_azure Main.azure_with_credentials),
                  Main.world1))))
    !! "AZURE_OPENAI_ENDPOINT"
  = Some "azure-end-point"%string.
Proof.
  refine (proj1 (get_llm_azure_sets_environ (K := Main.constants)
                   (L := Main.pylib) PyNone
                   (Main.agent_of (Main.args_azure Main.azure_with_credentials),
                    Main.world1)
                   "azure-end-point" "test-api-key" _ _ _ _ _ _)).
  all: vm_compute; try reflexivity; discriminate.
Defined.

Lemma get_llm_azure_key_missing_witness :
  get_llm (K := Main.constants) (L := Main.pylib) PyNone
    (Main.agent_of (Main.args_azure Main.azure_without_key), Main.world1)
  = (Raise (KeyError "api_key"),
     (Main.agent_of (Main.args_azure Main.azure_without_key),
      setenv "AZURE_OPENAI_ENDPOINT" "azure-end-point" Main.world1)).
Proof.
  apply (get_llm_azure_key_missing (K := Main.constants) (L := Main.pylib)
           PyNone
           (Main.agent_of (Main.args_azure Main.azure_without_key), Main.world1)
           "azure-end-point").
  all: vm_compute; try reflexivity; discriminate.
Defined.

Lemma get_llm_keeps_environ_witness :
  environ (snd (snd (get_llm (K := Main.constants) (L := Main.pylib) PyNone
                       (Main.c_agent, Main.world1))))
  = environ Main.world1.
Proof.
  apply (get_llm_keeps_environ (K := Main.constants) (L := Main.pylib) PyNone
           (Main.c_agent, Main.world1)).
  left. vm_compute. reflexivity.
Defined.

Lemma get_llm_azure_bad_endpoint_witness :
  get_llm (K := Main.constants) (L := Main.pylib) PyNone
    (Main.agent_of (Main.args_azure Main.azure_endpoint_not_str), Main.world1)
  = (Raise TypeError,
     (Main.agent_of (Main.args_azure Main.azure_endpoint_not_str), Main.world1)).
Proof.
  refine (proj2 (get_llm_azure_bad_endpoint (K := Main.constants)
                   (L := Main.pylib) PyNone
                   (Main.agent_of (Main.args_azure Main.azure_endpoint_not_str),
                    Main.world1) _ _)
                (PyInt 443) _ _).
  - vm_compute. discriminate.
  - vm_compute. reflexivity.
  - vm_compute. reflexivity.
  - intros str. discriminate.
Defined.


Lemma save_history_unserializable_witness :
  fst (save_history (L := Main.pylib) (X := Main.externals) (Some "123"%string)
         (call_all (L := Main.pylib) [Main.unserializable_finish]
                   (Main.c_agent, Main.world1)))
  = Raise TypeError
  /\ trace
       (snd (snd (save_history (L := Main.pylib) (X := Main.externals)
                    (Some "123"%string)
                    (call_all (L := Main.pylib) [Main.unserializable_finish]
                              (Main.c_agent, Main.world1)))))
     = trace
         (snd (call_all (L := Main.pylib) [Main.unserializable_finish]
                        (Main.c_agent, Main.world1)))
         ++ [EvOpen
               (task_output_logs
                  (fst (call_all (L := Main.pylib) [Main.unserializable_finish]
                                 (Main.c_agent, Main.world1))))
               "w" "utf-8"].
Proof.
  apply (save_history_unserializable (L := Main.pylib) (X := Main.externals)
           (Some "123"%string)
           (call_all (L := Main.pylib) [Main.unserializable_finish]
                     (Main.c_agent, Main.world1))
           TypeError).
  - vm_compute. reflexivity.
  - vm_compute. reflexivity.
Defined.

Lemma save_history_open_fails_witness :
  fst (save_history (L := Main.pylib) (X := Main.externals_open_fails)
         (Some "123"%string) (Main.c_agent, Main.world1))
  = Raise (ExternalError "open")
  /\ trace
       (snd (snd (save_history (L := Main.pylib) (X := Main.externals_open_fails)
                    (Some "123"%string) (Main.c_agent, Main.world1))))
     = trace Main.world1 ++ [EvOpen (task_output_logs Main.c_agent) "w" "utf-8"]
  /\ Some "123"%string
       ∈ agent_logs
           (fst (snd (save_history (L := Main.pylib)
                        (X := Main.externals_open_fails)
                        (Some "123"%string) (Main.c_agent, Main.world1)))).
Proof.
  apply (save_history_open_fails (L := Main.pylib)
           (X := Main.externals_open_fails) (Some "123"%string)
           (Main.c_agent, Main.world1) (ExternalError "open")).
  vm_compute. reflexivity.
Defined.

Lemma init_calls_in_order_witness :
  fst (__init__ (L := Main.pylib) (X := Main.externals_second_client_fails)
         Main.args Main.world0)
  = Raise (ExternalError "client")
  /\ trace (snd (__init__ (L := Main.pylib)
                   (X := Main.externals_second_client_fails)
                   Main.args Main.world0))
     = trace Main.world0
         ++ [EvToolSetInit;
             EvGetTools [LOCALWORKSPACE; CMDMANAGERTOOL; HISTORYKEEPER;
                         SUBMITPATCHTOOL];
             EvComposioClient; EvGetEntity "swe-agent"; EvComposioClient].
Proof.
  destruct (init_calls_in_order (L := Main.pylib)
              (X := Main.externals_second_client_fails) Main.args Main.world0)
    as (ev & Ht & _ & _ & _ & _ & Hstop).
  destruct Hstop as [Hev Hres]; [vm_compute; reflexivity|].
  split; [exact Hres|]. rewrite Ht, Hev. vm_compute. reflexivity.
Defined.

Lemma log_path_collision_witness :
  task_output_logs Main.c_agent
  = task_output_logs (Main.agent_of Main.args_without_repo).
Proof.
  apply (log_path_collision (L := Main.pylib) (X := Main.externals)
           Main.args Main.args_without_repo Main.world0 Main.world0
           Main.c_agent (Main.agent_of Main.args_without_repo)
           Main.world1 Main.world1).
  all: vm_compute; reflexivity.
Defined.

Lemma run_without_repo_name_witness :
  exists w',
    run (K := Main.constants) (L := Main.pylib) (X := Main.externals)
        (Main.agent_of Main.args_without_repo, Main.world1)
    = (Raise AttributeError, (Main.agent_of Main.args_without_repo, w'))
    /\ trace w'
       = trace Main.world1
           ++ [EvLLM (ChatOpenAI "gpt-4-turbo" None PyNone);
               create_call (Main.agent_of Main.args_without_repo);
               clone_call (Main.agent_of Main.args_without_repo) (PyStr "ws-1")].
Proof.
  eapply (run_without_repo_name (K := Main.constants) (L := Main.pylib)
            (X := Main.externals)
            (Main.agent_of Main.args_without_repo, Main.world1)
            (ChatOpenAI "gpt-4-turbo" None PyNone) _
            {| workspace_id := PyStr "ws-1"; response_text := "ok" |}).
  all: vm_compute; reflexivity.
Defined.

Lemma run_crew_failure_keeps_entries_witness :
  fst (run (K := Main.constants) (L := Main.pylib)
           (X := Main.externals_crew_fails) (Main.c_agent, Main.world1))
  = Raise (ExternalError "crew")
  /\ length
       (current_logs
          (fst (snd (run (K := Main.constants) (L := Main.pylib)
                         (X := Main.externals_crew_fails)
                         (Main.c_agent, Main.world1))))) = 2.
Proof.
  destruct (run_crew_failure_keeps_entries (K := Main.constants)
              (L := Main.pylib) (X := Main.externals_crew_fails)
              (Main.c_agent, Main.world1)
              (ChatOpenAI "gpt-4-turbo" None PyNone)
              (snd (get_llm (K := Main.constants) (L := Main.pylib) PyNone
                      (Main.c_agent, Main.world1)))
              {| workspace_id := PyStr "ws-1"; response_text := "ok" |}
              {| workspace_id := PyStr "ws-1"; response_text := "ok" |}
              ("issue {issue_id}"%string, "workspace {workspace_id}"%string)
              (ExternalError "crew")) as [Hr Hl].
  1-5: vm_compute; reflexivity.
  split; [exact Hr|]. rewrite Hl. vm_compute. reflexivity.
Defined.

Lemma run_twice_witness :
  exists crew1 crew2,
    current_logs
      (fst (snd (run (K := Main.constants) (L := Main.pylib)
                     (X := Main.externals) (Main.c_agent, Main.world1))))
    = current_logs Main.c_agent
        ++ crew_entries (L := Main.pylib) (X := Main.externals) crew1
    /\ current_logs
         (fst (snd (run (K := Main.constants) (L := Main.pylib)
                        (X := Main.externals_later_run)
                        (fst (snd (run (K := Main.constants) (L := Main.pylib)
                                       (X := Main.externals)
                                       (Main.c_agent, Main.world1))),
                         Main.world2))))
       = current_logs
           (fst (snd (run (K := Main.constants) (L := Main.pylib)
                          (X := Main.externals) (Main.c_agent, Main.world1))))
           ++ crew_entries (L := Main.pylib) (X := Main.externals_later_run)
                crew2
    /\ length (crew_entries (L := Main.pylib) (X := Main.externals) crew1) = 2
    /\ length (crew_entries (L := Main.pylib) (X := Main.externals_later_run)
                 crew2) = 1.
Proof.
  destruct (run_twice (K := Main.constants) (L := Main.pylib)
              Main.externals Main.externals_later_run
              (Main.c_agent, Main.world1)
              (snd (run (K := Main.constants) (L := Main.pylib)
                        (X := Main.externals) (Main.c_agent, Main.world1)))
              Main.world2
              (snd (run (K := Main.constants) (L := Main.pylib)
                        (X := Main.externals_later_run)
                        (fst (snd (run (K := Main.constants) (L := Main.pylib)
                                       (X := Main.externals)
                                       (Main.c_agent, Main.world1))),
                         Main.world2))))
    as (crew1 & crew2 & calls1 & calls2 & data1 & data2
        & _ & _ & Hl1 & _ & _ & Hl2 & _).
  1-2: vm_compute; reflexivity.
  exists crew1, crew2. split; [exact Hl1|]. split; [exact Hl2|].
  split.
  - apply (f_equal length) in Hl1. rewrite length_app in Hl1.
    vm_compute in Hl1. vm_compute. congruence.
  - apply (f_equal length) in Hl2. rewrite length_app in Hl2.
    vm_compute in Hl2. vm_compute. congruence.
Defined.

Lemma repo_name_dir_last_component_witness :
  repo_name_dir (L := Main.pylib) (Some "ComposioHQ/composio"%string)
  = Ok "/composio"%string.
Proof.
  refine (proj1 (repo_name_dir_last_component (L := Main.pylib)
                   "ComposioHQ" "composio" _)).
  vm_compute. reflexivity.
Defined.

Lemma setup_logger_repeated_witness :
  emissions INFO (getLogger "local_workspace" (setup_logger (setup_logger ∅)))
  = 2.
Proof.
  refine (proj1 (proj2 (setup_logger_repeated 2 ∅ _)) INFO _).
  - reflexivity.
  - discriminate.
Defined.
End EntryPointFurther.
